(** * Shallow embedding of [scripts/import_meta_csv.py]

    The loader reads advertising rows and, per row, resolves the dimension
    keys with "get or create" queries, deletes the fact row of the row's grain
    and inserts the new one, then commits; a [pyodbc.Error] rolls the row
    back and the loop continues.

    Model of the storage collaborator (SQL Server through pyodbc, with
    [autocommit=False]):
    - every table is a list of rows in insertion order; [fetchone] after a
      [SELECT] returns the first matching row;
    - the connection keeps the last committed database and the working one;
      [commit] copies the working one over the committed one, [rollback]
      the other way round;
    - [IDENTITY] counters are not transactional (as in SQL Server): they live
      beside the two databases and a rollback does not bring them back;
    - the driver may fail on any statement: [fault t] is the error message
      of the [t]-th statement sent on the connection, if it fails. A failed
      statement changes nothing. *)

From Stdlib Require Import ZArith List String Ascii Bool Lia.
Import ListNotations.
Open Scope Z_scope.

(** ** Values *)

(** A nullable SQL text value: [None] is [NULL] (Python [None]). *)
Definition text := option string.

(** SQL [=] between nullable values: [NULL] never compares equal, so the
    predicate [col = ?] is not satisfied when either side is [NULL]. *)
Definition sql_eq (a b : text) : bool :=
  match a, b with
  | Some x, Some y => String.eqb x y
  | _, _ => false
  end.

(** A calendar date of Python's [datetime] ([full_date.year], [.month],
    [.day]). *)
Record date := mkdate { year : Z; month : Z; day : Z }.

Definition is_leap (y : Z) : bool :=
  (Z.eqb (y mod 4) 0 && negb (Z.eqb (y mod 100) 0)) || Z.eqb (y mod 400) 0.

Definition days_in_month (y m : Z) : Z :=
  match m with
  | 2 => if is_leap y then 29 else 28
  | 4 | 6 | 9 | 11 => 30
  | _ => 31
  end.

(** The values a [datetime] can hold ([MINYEAR = 1], [MAXYEAR = 9999]). *)
Definition valid_date (d : date) : Prop :=
  1 <= year d <= 9999 /\ 1 <= month d <= 12 /\
  1 <= day d <= days_in_month (year d) (month d).

(** [date.toordinal()] as in CPython's [datetime.py]. *)
Definition days_before_year (y : Z) : Z :=
  let y1 := y - 1 in y1 * 365 + y1 / 4 - y1 / 100 + y1 / 400.

Fixpoint days_before_month_aux (y : Z) (k : nat) : Z :=
  match k with
  | O => 0
  | S k' => days_before_month_aux y k' + days_in_month y (Z.of_nat k)
  end.

Definition days_before_month (y m : Z) : Z :=
  days_before_month_aux y (Z.to_nat (m - 1)).

Definition toordinal (d : date) : Z :=
  days_before_year (year d) + days_before_month (year d) (month d) + day d.

(** [datetime.weekday()]: Monday is 0. *)
Definition weekday (d : date) : Z := (toordinal d + 6) mod 7.

(** A value of the [FullDate] column after [read_csv(parse_dates=...)]:
    a timestamp, or [NaT] for an empty or unparsable cell. *)
Inductive timestamp := TS (d : date) | NaT.

(** ** Formatting and parsing of decimal numbers *)

Definition digit_char (n : Z) : ascii := ascii_of_nat (48 + Z.to_nat n).

(** [n] written with at least [w] digits, zero padded ([%04d]-like); used
    for [%Y], [%m] and [%d], whose values always fit their width. *)
Fixpoint zpad (w : nat) (n : Z) : string :=
  match w with
  | O => EmptyString
  | S w' => zpad w' (n / 10) ++ String (digit_char (n mod 10)) EmptyString
  end.

(** [full_date.strftime("%Y%m%d")]; [NaT.strftime] raises [ValueError]. *)
Definition strftime_Ymd (d : date) : string :=
  zpad 4 (year d) ++ zpad 2 (month d) ++ zpad 2 (day d).

Definition char_digit (c : ascii) : option Z :=
  let n := Z.of_nat (nat_of_ascii c) in
  if (48 <=? n) && (n <=? 57) then Some (n - 48) else None.

Fixpoint parse_digits (s : string) (acc : Z) : option Z :=
  match s with
  | EmptyString => Some acc
  | String c s' =>
      match char_digit c with
      | Some k => parse_digits s' (acc * 10 + k)
      | None => None
      end
  end.

(** Python's [int(s)] on a string of ASCII digits; [None] is the
    [ValueError] it raises otherwise. *)
Definition py_int (s : string) : option Z :=
  match s with
  | EmptyString => None
  | _ => parse_digits s 0
  end.

(** ** Tables *)

Module Clients.
Record row := mk { ClientID : Z; AccountFBID : Z; ClientName : text }.
End Clients.

Module Campaigns.
Record row := mk { CampaignID : Z; ClientID : Z; CampaignFBID : Z;
                   CampaignName : text; Objective : text }.
End Campaigns.

Module AdSets.
Record row := mk { AdSetID : Z; CampaignID : Z; AdSetFBID : Z;
                   AdSetName : text }.
End AdSets.

Module Ads.
Record row := mk { AdID : Z; AdSetID : Z; AdFBID : Z; AdName : text;
                   AdBody : text; AdThumbnailURL : text;
                   PermanentLink : text }.
End Ads.

Module Dates.
Record row := mk { DateID : Z; FullDate : date; Year : Z; Month : Z;
                   Day : Z; DayOfWeek : Z }.
End Dates.

Module Demographics.
Record row := mk { DemographicID : Z; AgeBracket : text; Gender : text }.
End Demographics.

Module Placements.
Record row := mk { PlacementID : Z; Platform : text; Device : text;
                   Position : text }.
End Placements.

(** The measures of a metric row. The code hands them to the driver
    untouched, so their numeric type plays no role; they are integers
    here. *)
Record measures := mkmeasures {
  Spend : Z; Impressions : Z; Reach : Z; Clicks : Z; Purchases : Z;
  PurchaseValue : Z; VideoPlays_25_Pct : Z; VideoPlays_50_Pct : Z;
  VideoPlays_75_Pct : Z; VideoPlays_95_Pct : Z; VideoPlays_100_Pct : Z;
  Results : Z; CostPerResult : Z }.

Module Facts.
Record row := mk { DateID : Z; ClientID : Z; CampaignID : Z; AdSetID : Z;
                   AdID : Z; DemographicID : Z; PlacementID : Z;
                   Measures : measures }.
End Facts.

Record DB := mkDB {
  dim_Clients : list Clients.row;
  dim_Campaigns : list Campaigns.row;
  dim_AdSets : list AdSets.row;
  dim_Ads : list Ads.row;
  dim_Date : list Dates.row;
  dim_Demographics : list Demographics.row;
  dim_Placements : list Placements.row;
  fact_Metrics : list Facts.row }.

Definition empty_db : DB := mkDB [] [] [] [] [] [] [] [].

(** The next [IDENTITY] value of each dimension table with a generated key
    ([dim_Date] has none: its key is computed). *)
Record Idents := mkIdents {
  next_client : Z; next_campaign : Z; next_adset : Z; next_ad : Z;
  next_demographic : Z; next_placement : Z }.

Definition fresh_idents : Idents := mkIdents 1 1 1 1 1 1.

(** One row of the CSV, as [df.itertuples()] yields it. *)
Record csv_row := mkrow {
  FullDate : timestamp;
  AccountFBID : Z; ClientName : text;
  CampaignFBID : Z; CampaignName : text; Objective : text;
  AdSetFBID : Z; AdSetName : text;
  AdFBID : Z; AdName : text; AdBody : text; AdThumbnailURL : text;
  PermanentLink : text;
  AgeBracket : text; Gender : text;
  Platform : text; Device : text; Position : text;
  row_measures : measures }.

(** ** Connection, exceptions and the loader's monad *)

(** Exceptions the loader can meet: the driver's [pyodbc.Error] (carrying
    the driver's message) and Python's own exceptions ([ValueError] from
    [NaT.strftime] or [int(...)]), which [main] does not catch. *)
Inductive exn := DbError (msg : string) | ValueError (msg : string).

(** What [main] prints, one constructor per [print] call of the loop. *)
Inductive line :=
| Start                        (* "Iniciando importación de archivo ..." *)
| Progress (idx total : Z)     (* "Procesando fila {idx} de {total}..." *)
| RowError (idx : Z) (err : string)   (* "Error en fila {idx}: {err}" *)
| Done.                        (* "Importación completada." *)

Record Conn := mkConn {
  committed : DB;
  work : DB;
  idents : Idents;
  tick : nat;
  out : list line }.

Definition set_work (c : Conn) (db : DB) (ids : Idents) : Conn :=
  mkConn (committed c) db ids (tick c) (out c).
Definition set_committed (c : Conn) (db : DB) : Conn :=
  mkConn db (work c) (idents c) (tick c) (out c).
Definition next_tick (c : Conn) : Conn :=
  mkConn (committed c) (work c) (idents c) (S (tick c)) (out c).

(** A connected session before the first row: nothing uncommitted. *)
Definition session (db : DB) (ids : Idents) : Conn := mkConn db db ids 0 [].

Inductive result (A : Type) := Ok (a : A) | Raise (e : exn).
Arguments Ok {A} a.
Arguments Raise {A} e.

Definition M (A : Type) := Conn -> result A * Conn.

Definition ret {A} (a : A) : M A := fun c => (Ok a, c).
Definition raise {A} (e : exn) : M A := fun c => (Raise e, c).
Definition bind {A B} (m : M A) (k : A -> M B) : M B := fun c =>
  match m c with
  | (Ok a, c') => k a c'
  | (Raise e, c') => (Raise e, c')
  end.

Notation "'do' x <- m ; k" := (bind m (fun x => k))
  (at level 200, x name, m at level 100, k at level 200).
Notation "m ;; k" := (bind m (fun _ => k))
  (at level 100, k at level 200, right associativity).

Definition print (l : line) : M unit := fun c =>
  (Ok tt, mkConn (committed c) (work c) (idents c) (tick c) (out c ++ [l])).

(** [try: body except pyodbc.Error as err: handler(err)]: other exceptions
    go through. *)
Definition try_db {A} (body : M A) (handler : string -> M A) : M A := fun c =>
  match body c with
  | (Raise (DbError e), c') => handler e c'
  | r => r
  end.

(** A statement of the transaction on the working database. *)
Definition stmt (A : Type) := DB -> Idents -> A * DB * Idents.

Section Driver.
Variable fault : nat -> option string.

(** [cur.execute(...)] (followed by [fetchone] where the code reads a
    row): fails with the driver's error, or runs the statement. *)
Definition execute {A} (s : stmt A) : M A := fun c =>
  match fault (tick c) with
  | Some e => (Raise (DbError e), next_tick c)
  | None =>
      let '(a, db', ids') := s (work c) (idents c) in
      (Ok a, next_tick (set_work c db' ids'))
  end.

Definition commit : M unit := fun c =>
  match fault (tick c) with
  | Some e => (Raise (DbError e), next_tick c)
  | None => (Ok tt, next_tick (set_committed c (work c)))
  end.

Definition rollback : M unit := fun c =>
  match fault (tick c) with
  | Some e => (Raise (DbError e), next_tick c)
  | None => (Ok tt, next_tick (set_work c (committed c) (idents c)))
  end.
End Driver.

(** ** Statements on the dimension and fact tables *)

Definition upd_clients (db : DB) (l : list Clients.row) : DB :=
  mkDB l (dim_Campaigns db) (dim_AdSets db) (dim_Ads db) (dim_Date db)
       (dim_Demographics db) (dim_Placements db) (fact_Metrics db).
Definition upd_campaigns (db : DB) (l : list Campaigns.row) : DB :=
  mkDB (dim_Clients db) l (dim_AdSets db) (dim_Ads db) (dim_Date db)
       (dim_Demographics db) (dim_Placements db) (fact_Metrics db).
Definition upd_adsets (db : DB) (l : list AdSets.row) : DB :=
  mkDB (dim_Clients db) (dim_Campaigns db) l (dim_Ads db) (dim_Date db)
       (dim_Demographics db) (dim_Placements db) (fact_Metrics db).
Definition upd_ads (db : DB) (l : list Ads.row) : DB :=
  mkDB (dim_Clients db) (dim_Campaigns db) (dim_AdSets db) l (dim_Date db)
       (dim_Demographics db) (dim_Placements db) (fact_Metrics db).
Definition upd_dates (db : DB) (l : list Dates.row) : DB :=
  mkDB (dim_Clients db) (dim_Campaigns db) (dim_AdSets db) (dim_Ads db) l
       (dim_Demographics db) (dim_Placements db) (fact_Metrics db).
Definition upd_demographics (db : DB) (l : list Demographics.row) : DB :=
  mkDB (dim_Clients db) (dim_Campaigns db) (dim_AdSets db) (dim_Ads db)
       (dim_Date db) l (dim_Placements db) (fact_Metrics db).
Definition upd_placements (db : DB) (l : list Placements.row) : DB :=
  mkDB (dim_Clients db) (dim_Campaigns db) (dim_AdSets db) (dim_Ads db)
       (dim_Date db) (dim_Demographics db) l (fact_Metrics db).
Definition upd_facts (db : DB) (l : list Facts.row) : DB :=
  mkDB (dim_Clients db) (dim_Campaigns db) (dim_AdSets db) (dim_Ads db)
       (dim_Date db) (dim_Demographics db) (dim_Placements db) l.

Definition upd_next_client (i : Idents) (k : Z) : Idents :=
  mkIdents k (next_campaign i) (next_adset i) (next_ad i)
           (next_demographic i) (next_placement i).
Definition upd_next_campaign (i : Idents) (k : Z) : Idents :=
  mkIdents (next_client i) k (next_adset i) (next_ad i)
           (next_demographic i) (next_placement i).
Definition upd_next_adset (i : Idents) (k : Z) : Idents :=
  mkIdents (next_client i) (next_campaign i) k (next_ad i)
           (next_demographic i) (next_placement i).
Definition upd_next_ad (i : Idents) (k : Z) : Idents :=
  mkIdents (next_client i) (next_campaign i) (next_adset i) k
           (next_demographic i) (next_placement i).
Definition upd_next_demographic (i : Idents) (k : Z) : Idents :=
  mkIdents (next_client i) (next_campaign i) (next_adset i) (next_ad i)
           k (next_placement i).
Definition upd_next_placement (i : Idents) (k : Z) : Idents :=
  mkIdents (next_client i) (next_campaign i) (next_adset i) (next_ad i)
           (next_demographic i) k.

(** [SELECT ClientID FROM dim_Clients WHERE AccountFBID = ?] + [fetchone]. *)
Definition select_client (account_fbid : Z) : stmt (option Z) := fun db i =>
  (option_map Clients.ClientID
     (find (fun r => Clients.AccountFBID r =? account_fbid) (dim_Clients db)),
   db, i).

(** [INSERT INTO dim_Clients ... OUTPUT INSERTED.ClientID]. *)
Definition insert_client (account_fbid : Z) (name : text) : stmt Z := fun db i =>
  let k := next_client i in
  (k, upd_clients db (dim_Clients db ++ [Clients.mk k account_fbid name]),
   upd_next_client i (k + 1)).

Definition select_campaign (campaign_fbid : Z) : stmt (option Z) := fun db i =>
  (option_map Campaigns.CampaignID
     (find (fun r => Campaigns.CampaignFBID r =? campaign_fbid)
        (dim_Campaigns db)), db, i).

Definition insert_campaign (client_id campaign_fbid : Z) (name objective : text)
  : stmt Z := fun db i =>
  let k := next_campaign i in
  (k, upd_campaigns db (dim_Campaigns db ++
        [Campaigns.mk k client_id campaign_fbid name objective]),
   upd_next_campaign i (k + 1)).

Definition select_adset (adset_fbid : Z) : stmt (option Z) := fun db i =>
  (option_map AdSets.AdSetID
     (find (fun r => AdSets.AdSetFBID r =? adset_fbid) (dim_AdSets db)), db, i).

Definition insert_adset (campaign_id adset_fbid : Z) (name : text)
  : stmt Z := fun db i =>
  let k := next_adset i in
  (k, upd_adsets db (dim_AdSets db ++ [AdSets.mk k campaign_id adset_fbid name]),
   upd_next_adset i (k + 1)).

Definition select_ad (ad_fbid : Z) : stmt (option Z) := fun db i =>
  (option_map Ads.AdID
     (find (fun r => Ads.AdFBID r =? ad_fbid) (dim_Ads db)), db, i).

Definition insert_ad (adset_id ad_fbid : Z)
  (name body thumbnail_url permanent_link : text) : stmt Z := fun db i =>
  let k := next_ad i in
  (k, upd_ads db (dim_Ads db ++
        [Ads.mk k adset_id ad_fbid name body thumbnail_url permanent_link]),
   upd_next_ad i (k + 1)).

(** [SELECT DateID FROM dim_Date WHERE DateID = ?]: only whether
    [fetchone] returned a row matters. *)
Definition select_date (date_id : Z) : stmt bool := fun db i =>
  (existsb (fun r => Dates.DateID r =? date_id) (dim_Date db), db, i).

Definition insert_date (r : Dates.row) : stmt unit := fun db i =>
  (tt, upd_dates db (dim_Date db ++ [r]), i).

(** [... WHERE AgeBracket = ? AND Gender = ?] under SQL's [NULL] rule. *)
Definition select_demographic (age_bracket gender : text) : stmt (option Z) :=
  fun db i =>
  (option_map Demographics.DemographicID
     (find (fun r => sql_eq (Demographics.AgeBracket r) age_bracket &&
                     sql_eq (Demographics.Gender r) gender)
        (dim_Demographics db)), db, i).

Definition insert_demographic (age_bracket gender : text) : stmt Z := fun db i =>
  let k := next_demographic i in
  (k, upd_demographics db (dim_Demographics db ++
        [Demographics.mk k age_bracket gender]),
   upd_next_demographic i (k + 1)).

Definition select_placement (platform device position : text)
  : stmt (option Z) := fun db i =>
  (option_map Placements.PlacementID
     (find (fun r => sql_eq (Placements.Platform r) platform &&
                     sql_eq (Placements.Device r) device &&
                     sql_eq (Placements.Position r) position)
        (dim_Placements db)), db, i).

Definition insert_placement (platform device position : text) : stmt Z :=
  fun db i =>
  let k := next_placement i in
  (k, upd_placements db (dim_Placements db ++
        [Placements.mk k platform device position]),
   upd_next_placement i (k + 1)).

(** The grain of a fact row. *)
Definition grain (f : Facts.row) : Z * Z * Z * Z :=
  (Facts.DateID f, Facts.AdID f, Facts.DemographicID f, Facts.PlacementID f).

Definition grain_eqb (g h : Z * Z * Z * Z) : bool :=
  let '(a, b, c, d) := g in let '(a', b', c', d') := h in
  (a =? a') && (b =? b') && (c =? c') && (d =? d').

(** [DELETE FROM fact_Metrics WHERE DateID=? AND AdID=? AND DemographicID=?
    AND PlacementID=?] (the keys are integers, never [NULL]). *)
Definition delete_facts (date_id ad_id demographic_id placement_id : Z)
  : stmt unit := fun db i =>
  (tt, upd_facts db (filter (fun f => negb (grain_eqb (grain f)
          (date_id, ad_id, demographic_id, placement_id))) (fact_Metrics db)),
   i).

Definition insert_fact (f : Facts.row) : stmt unit := fun db i =>
  (tt, upd_facts db (fact_Metrics db ++ [f]), i).

(** ** The loader *)

Section Loader.
Variable fault : nat -> option string.

Abbreviation execute := (execute fault).
Abbreviation commit := (commit fault).
Abbreviation rollback := (rollback fault).

Definition get_or_create_client (account_fbid : Z) (name : text) : M Z :=
  do row <- execute (select_client account_fbid);
  match row with
  | Some id => ret id
  | None => execute (insert_client account_fbid name)
  end.

Definition get_or_create_campaign (client_id campaign_fbid : Z)
  (name objective : text) : M Z :=
  do row <- execute (select_campaign campaign_fbid);
  match row with
  | Some id => ret id
  | None => execute (insert_campaign client_id campaign_fbid name objective)
  end.

Definition get_or_create_adset (campaign_id adset_fbid : Z) (name : text)
  : M Z :=
  do row <- execute (select_adset adset_fbid);
  match row with
  | Some id => ret id
  | None => execute (insert_adset campaign_id adset_fbid name)
  end.

Definition get_or_create_ad (adset_id ad_fbid : Z)
  (name body thumbnail_url permanent_link : text) : M Z :=
  do row <- execute (select_ad ad_fbid);
  match row with
  | Some id => ret id
  | None => execute (insert_ad adset_id ad_fbid name body thumbnail_url
                               permanent_link)
  end.

Definition get_or_create_date (full_date : timestamp) : M Z :=
  match full_date with
  | NaT => raise (ValueError "NaTType does not support strftime")
  | TS d =>
      match py_int (strftime_Ymd d) with
      | None => raise (ValueError "invalid literal for int()")
      | Some date_id =>
          do found <- execute (select_date date_id);
          if found then ret date_id
          else
            execute (insert_date (Dates.mk date_id d (year d) (month d)
                                    (day d) (weekday d + 1)));;
            ret date_id
      end
  end.

Definition get_or_create_demographic (age_bracket gender : text) : M Z :=
  do row <- execute (select_demographic age_bracket gender);
  match row with
  | Some id => ret id
  | None => execute (insert_demographic age_bracket gender)
  end.

Definition get_or_create_placement (platform device position : text) : M Z :=
  do row <- execute (select_placement platform device position);
  match row with
  | Some id => ret id
  | None => execute (insert_placement platform device position)
  end.

Definition process_row (row : csv_row) : M unit :=
  do date_id <- get_or_create_date (FullDate row);
  do client_id <- get_or_create_client (AccountFBID row) (ClientName row);
  do campaign_id <- get_or_create_campaign client_id (CampaignFBID row)
                      (CampaignName row) (Objective row);
  do adset_id <- get_or_create_adset campaign_id (AdSetFBID row)
                   (AdSetName row);
  do ad_id <- get_or_create_ad adset_id (AdFBID row) (AdName row)
                (AdBody row) (AdThumbnailURL row) (PermanentLink row);
  do demographic_id <- get_or_create_demographic (AgeBracket row)
                         (Gender row);
  do placement_id <- get_or_create_placement (Platform row) (Device row)
                       (Position row);
  execute (delete_facts date_id ad_id demographic_id placement_id);;
  execute (insert_fact (Facts.mk date_id client_id campaign_id adset_id ad_id
                          demographic_id placement_id (row_measures row))).

(** The body of the [for] loop of [main] for the row at position [idx]. *)
Definition import_row (idx total : Z) (row : csv_row) : M unit :=
  print (Progress idx total);;
  try_db (process_row row;; commit)
         (fun err => rollback;; print (RowError idx err)).

Fixpoint import_rows (idx total : Z) (rows : list csv_row) : M unit :=
  match rows with
  | [] => ret tt
  | row :: rest => import_row idx total row;; import_rows (idx + 1) total rest
  end.

(** [main] from the point where the connection is open and the CSV read:
    [cursor.close()] and [conn.close()] change nothing once every row is
    committed or rolled back. *)
Definition main (rows : list csv_row) : M unit :=
  print Start;;
  import_rows 1 (Z.of_nat (List.length rows)) rows;;
  print Done.
End Loader.

(** ** Reasoning about runs *)

Definition facts_at (g : Z * Z * Z * Z) (db : DB) : list Facts.row :=
  filter (fun f => grain_eqb (grain f) g) (fact_Metrics db).

Lemma grain_eqb_spec g h : grain_eqb g h = true <-> g = h.
Proof.
  destruct g as [[[a b] c] d], h as [[[a' b'] c'] d']; simpl.
  rewrite !andb_true_iff, !Z.eqb_eq.
  split; [intros [[[-> ->] ->] ->]; reflexivity|].
  intros H; inversion H; subst; tauto.
Qed.

Lemma grain_eqb_sym g h : grain_eqb g h = grain_eqb h g.
Proof.
  destruct (grain_eqb g h) eqn:E1, (grain_eqb h g) eqn:E2; auto.
  - apply grain_eqb_spec in E1; subst.
    rewrite <- E2. symmetry. apply grain_eqb_spec; auto.
  - apply grain_eqb_spec in E2; subst.
    rewrite <- E1. apply grain_eqb_spec; auto.
Qed.

Lemma bind_ok {A B} (m : M A) (k : A -> M B) c b c'' :
  bind m k c = (Ok b, c'') ->
  exists a c', m c = (Ok a, c') /\ k a c' = (Ok b, c'').
Proof.
  unfold bind. destruct (m c) as [[a|e] c']; intros H; [eauto|discriminate].
Qed.

(** A relation between the state before and after a computation, whatever
    its outcome. *)
Definition preserves {A} (P : Conn -> Conn -> Prop) (m : M A) : Prop :=
  forall c r c', m c = (r, c') -> P c c'.

Section Preserves.
Variable P : Conn -> Conn -> Prop.
Hypothesis P_refl : forall c, P c c.
Hypothesis P_trans : forall c1 c2 c3, P c1 c2 -> P c2 c3 -> P c1 c3.

Lemma preserves_ret {A} (a : A) : preserves P (ret a).
Proof. intros c r c' H. inversion H; subst. apply P_refl. Qed.

Lemma preserves_raise {A} e : preserves P (@raise A e).
Proof. intros c r c' H. inversion H; subst. apply P_refl. Qed.

Lemma preserves_bind {A B} (m : M A) (k : A -> M B) :
  preserves P m -> (forall a, preserves P (k a)) -> preserves P (bind m k).
Proof.
  intros Hm Hk c r c'' H. unfold bind in H.
  destruct (m c) as [[a|e] c'] eqn:E.
  - eapply P_trans; [eapply Hm; eauto | eapply Hk; eauto].
  - inversion H; subst. eapply Hm; eauto.
Qed.

Lemma preserves_execute {A} fault (s : stmt A) :
  (forall c, P c (next_tick c)) ->
  (forall c a db i, s (work c) (idents c) = (a, db, i) ->
                    P c (next_tick (set_work c db i))) ->
  preserves P (execute fault s).
Proof.
  intros Ht Hs c r c' H. unfold execute in H.
  destruct (fault (tick c)).
  - inversion H; subst. apply Ht.
  - destruct (s (work c) (idents c)) as [[a db] i] eqn:E.
    inversion H; subst. eapply Hs; eauto.
Qed.
End Preserves.

Create HintDb loader.
#[local] Hint Resolve preserves_ret preserves_raise : loader.

(** Only the two fact statements touch [fact_Metrics]. *)
Definition same_facts (c c' : Conn) : Prop :=
  fact_Metrics (work c') = fact_Metrics (work c).

Lemma same_facts_refl c : same_facts c c.
Proof. reflexivity. Qed.

Lemma same_facts_trans c1 c2 c3 :
  same_facts c1 c2 -> same_facts c2 c3 -> same_facts c1 c3.
Proof. unfold same_facts; congruence. Qed.

Lemma same_facts_tick c : same_facts c (next_tick c).
Proof. reflexivity. Qed.

Ltac same_facts_step :=
  repeat first
    [ apply (preserves_bind _ same_facts_trans); [|intro]
    | apply (preserves_ret _ same_facts_refl)
    | apply (preserves_raise _ same_facts_refl)
    | apply (preserves_execute _ _ _ same_facts_tick);
        intros ? ? ? ?; cbv [select_client insert_client select_campaign
            insert_campaign select_adset insert_adset select_ad insert_ad
            select_date insert_date select_demographic insert_demographic
            select_placement insert_placement];
        intro Hs; inversion Hs; subst; reflexivity
    | match goal with
      | |- preserves _ (match ?x with _ => _ end) => destruct x
      | |- preserves _ (if ?x then _ else _) => destruct x
      end ].

Lemma dims_same_facts fault (r : csv_row) :
  preserves same_facts (get_or_create_date fault (FullDate r)) /\
  (forall a n, preserves same_facts (get_or_create_client fault a n)) /\
  (forall k f n o, preserves same_facts (get_or_create_campaign fault k f n o)) /\
  (forall k f n, preserves same_facts (get_or_create_adset fault k f n)) /\
  (forall k f n b t p,
      preserves same_facts (get_or_create_ad fault k f n b t p)) /\
  (forall a g, preserves same_facts (get_or_create_demographic fault a g)) /\
  (forall p d q, preserves same_facts (get_or_create_placement fault p d q)).
Proof.
  repeat split; intros;
    unfold get_or_create_date, get_or_create_client, get_or_create_campaign,
      get_or_create_adset, get_or_create_ad, get_or_create_demographic,
      get_or_create_placement; same_facts_step.
Qed.

Lemma replace_facts_at (F : list Facts.row) (f : Facts.row) g :
  filter (fun x => grain_eqb (grain x) g)
    (filter (fun x => negb (grain_eqb (grain x) (grain f))) F ++ [f]) =
  if grain_eqb g (grain f) then [f]
  else filter (fun x => grain_eqb (grain x) g) F.
Proof.
  rewrite filter_app.
  assert (Hf : filter (fun x => grain_eqb (grain x) g) [f] =
               if grain_eqb (grain f) g then [f] else []) by reflexivity.
  rewrite Hf, (grain_eqb_sym (grain f) g). clear Hf.
  destruct (grain_eqb g (grain f)) eqn:E.
  - apply grain_eqb_spec in E. subst g.
    induction F as [|x F IH]; cbn [filter]; [reflexivity|].
    destruct (grain_eqb (grain x) (grain f)) eqn:Ex; cbn [negb filter];
      [assumption|]. rewrite Ex. assumption.
  - rewrite app_nil_r. induction F as [|x F IH]; cbn [filter]; [reflexivity|].
    destruct (grain_eqb (grain x) g) eqn:Ex.
    + apply grain_eqb_spec in Ex. subst g.
      rewrite E. cbn [negb filter].
      rewrite (proj2 (grain_eqb_spec _ _) eq_refl). f_equal; assumption.
    + destruct (grain_eqb (grain x) (grain f)); cbn [negb filter];
        [assumption|].
      rewrite Ex. assumption.
Qed.

Ltac split_binds :=
  repeat match goal with
  | H : bind _ _ _ = (Ok _, _) |- _ =>
      let a := fresh "a" in let c1 := fresh "c" in let H1 := fresh "Hm" in
      apply bind_ok in H; destruct H as (a & c1 & H1 & H)
  end.

Lemma execute_ok {A} fault (s : stmt A) c a c' :
  execute fault s c = (Ok a, c') ->
  fault (tick c) = None /\
  exists db i, s (work c) (idents c) = (a, db, i) /\
               c' = next_tick (set_work c db i).
Proof.
  unfold execute. destruct (fault (tick c)); [discriminate|].
  destruct (s (work c) (idents c)) as [[a0 db] i]. intros H.
  inversion H; subst. eauto.
Qed.

(** The dimension keys a successful [process_row] used, and the fact row
    it inserted. *)
Lemma process_row_ok_facts fault r c c' :
  process_row fault r c = (Ok tt, c') ->
  exists f, Facts.Measures f = row_measures r /\
    fact_Metrics (work c') =
      filter (fun x => negb (grain_eqb (grain x) (grain f)))
             (fact_Metrics (work c)) ++ [f].
Proof.
  unfold process_row. intros H. split_binds.
  destruct (dims_same_facts fault r) as (Hd & Hc & Hca & Has & Had & Hde & Hp).
  apply Hd in Hm. apply Hc in Hm0. apply Hca in Hm1. apply Has in Hm2.
  apply Had in Hm3. apply Hde in Hm4. apply Hp in Hm5.
  apply execute_ok in Hm6. destruct Hm6 as (_ & db & i & Hs & ->).
  apply execute_ok in H. destruct H as (_ & db' & i' & Hs' & ->).
  unfold delete_facts in Hs. inversion Hs; subst. clear Hs.
  unfold insert_fact in Hs'. inversion Hs'; subst. clear Hs'.
  exists (Facts.mk a a0 a1 a2 a3 a4 a5 (row_measures r)).
  split; [reflexivity|]. cbn [work next_tick set_work upd_facts fact_Metrics].
  unfold same_facts in *. rewrite Hm5, Hm4, Hm3, Hm2, Hm1, Hm0, Hm.
  reflexivity.
Qed.

(** Only [commit] writes the committed database. *)
Definition same_committed (c c' : Conn) : Prop := committed c' = committed c.

Lemma same_committed_refl c : same_committed c c.
Proof. reflexivity. Qed.

Lemma same_committed_trans c1 c2 c3 :
  same_committed c1 c2 -> same_committed c2 c3 -> same_committed c1 c3.
Proof. unfold same_committed; congruence. Qed.

Lemma execute_same_committed {A} fault (s : stmt A) :
  preserves same_committed (execute fault s).
Proof.
  apply preserves_execute; [reflexivity|]. intros; reflexivity.
Qed.

Ltac preserve_with Hrefl Htrans Hexec :=
  repeat first
    [ apply (preserves_bind _ Htrans); [|intro]
    | apply (preserves_ret _ Hrefl)
    | apply (preserves_raise _ Hrefl)
    | apply Hexec
    | match goal with
      | |- preserves _ (match ?x with _ => _ end) => destruct x
      | |- preserves _ (if ?x then _ else _) => destruct x
      end ].

Lemma process_row_same_committed fault r :
  preserves same_committed (process_row fault r).
Proof.
  unfold process_row, get_or_create_date, get_or_create_client,
    get_or_create_campaign, get_or_create_adset, get_or_create_ad,
    get_or_create_demographic, get_or_create_placement.
  preserve_with same_committed_refl same_committed_trans
    @execute_same_committed.
Qed.

(** A failing [process_row; commit] leaves the committed database alone. *)
Lemma body_fail_same_committed fault r c e c' :
  (process_row fault r;; commit fault) c = (Raise e, c') ->
  committed c' = committed c.
Proof.
  unfold bind at 1. destruct (process_row fault r c) as [[u|e'] c1] eqn:E.
  - unfold commit. destruct (fault (tick c1)); intros H; inversion H; subst.
    apply (process_row_same_committed _ _ _ _ _ E).
  - intros H; inversion H; subst.
    apply (process_row_same_committed _ _ _ _ _ E).
Qed.

Lemma import_row_unfold fault idx total r c :
  import_row fault idx total r c =
  try_db (process_row fault r;; commit fault)
         (fun err => rollback fault;; print (RowError idx err))
         (snd (print (Progress idx total) c)).
Proof. reflexivity. Qed.

Lemma import_rows_cons fault idx total r rest c :
  import_rows fault idx total (r :: rest) c =
  match import_row fault idx total r c with
  | (Ok _, c') => import_rows fault (idx + 1) total rest c'
  | (Raise e, c') => (Raise e, c')
  end.
Proof. reflexivity. Qed.

(** *** Decimal formatting of dates *)

Lemma char_digit_digit_char k :
  0 <= k < 10 -> char_digit (digit_char k) = Some k.
Proof.
  intros Hk.
  assert (k = 0 \/ k = 1 \/ k = 2 \/ k = 3 \/ k = 4 \/ k = 5 \/ k = 6 \/
          k = 7 \/ k = 8 \/ k = 9) as Hc by lia.
  repeat destruct Hc as [-> | Hc]; try reflexivity; subst; reflexivity.
Qed.

Lemma parse_digits_app s1 s2 acc :
  parse_digits (s1 ++ s2) acc =
  match parse_digits s1 acc with
  | Some a => parse_digits s2 a
  | None => None
  end.
Proof.
  revert acc. induction s1 as [|ch s1 IH]; intros acc; [reflexivity|].
  cbn [String.append parse_digits]. destruct (char_digit ch); [apply IH|].
  reflexivity.
Qed.

Lemma parse_zpad w n acc :
  0 <= n < 10 ^ Z.of_nat w ->
  parse_digits (zpad w n) acc = Some (acc * 10 ^ Z.of_nat w + n).
Proof.
  revert n acc. induction w as [|w IH]; intros n acc Hn.
  - cbn in Hn |- *. f_equal. lia.
  - cbn [zpad]. rewrite parse_digits_app.
    rewrite Nat2Z.inj_succ, Z.pow_succ_r in Hn |- * by lia.
    assert (Hq : 0 <= n / 10 < 10 ^ Z.of_nat w).
    { split; [apply Z.div_pos; lia|]. apply Z.div_lt_upper_bound; lia. }
    rewrite (IH _ _ Hq). cbn [parse_digits].
    rewrite char_digit_digit_char by (apply Z.mod_pos_bound; lia).
    f_equal. pose proof (Z.div_mod n 10 ltac:(lia)). lia.
Qed.

Lemma string_length_app (s1 s2 : string) :
  String.length (s1 ++ s2) = (String.length s1 + String.length s2)%nat.
Proof. induction s1 as [|ch s1 IH]; cbn; [reflexivity|]. rewrite IH. reflexivity. Qed.

Lemma zpad_length w n : String.length (zpad w n) = w.
Proof.
  revert n. induction w as [|w IH]; intros n; [reflexivity|].
  cbn [zpad]. rewrite string_length_app, IH. cbn. lia.
Qed.

Lemma days_in_month_le y m : days_in_month y m <= 31.
Proof.
  unfold days_in_month.
  repeat match goal with
         | |- context [match ?x with _ => _ end] => destruct x
         end; lia.
Qed.

(** The key [get_or_create_date] computes: [int(strftime("%Y%m%d"))]. *)
Lemma py_int_strftime d :
  valid_date d ->
  py_int (strftime_Ymd d) = Some (year d * 10000 + month d * 100 + day d).
Proof.
  intros (Hy & Hm & Hd).
  pose proof (days_in_month_le (year d) (month d)).
  assert (Hne : String.length (strftime_Ymd d) = 8%nat).
  { unfold strftime_Ymd. rewrite !string_length_app, !zpad_length.
    reflexivity. }
  unfold py_int. destruct (strftime_Ymd d) as [|ch s] eqn:E;
    [discriminate Hne|].
  rewrite <- E. unfold strftime_Ymd.
  rewrite parse_digits_app, parse_zpad by (cbn; lia).
  rewrite parse_digits_app, parse_zpad by (cbn; lia).
  rewrite parse_zpad by (cbn; lia).
  f_equal. cbn. lia.
Qed.

Definition date_present (k : Z) (db : DB) : bool :=
  existsb (fun r => Dates.DateID r =? k) (dim_Date db).

Definition count_date (k : Z) (db : DB) : nat :=
  List.length (filter (fun r => Dates.DateID r =? k) (dim_Date db)).

Lemma existsb_filter_length {X} (p : X -> bool) l :
  existsb p l = false <-> List.length (filter p l) = 0%nat.
Proof.
  induction l as [|x l IH]; cbn; [tauto|].
  destruct (p x); cbn; [split; discriminate|assumption].
Qed.

(** *** Lookups *)

Lemma find_none_all {X} (p : X -> bool) l :
  (forall x, p x = false) -> find p l = None.
Proof.
  intros Hp. induction l as [|x l IH]; cbn; [reflexivity|]. rewrite Hp.
  exact IH.
Qed.

Lemma find_some_in {X} (p : X -> bool) l x :
  In x l -> p x = true -> exists y, find p l = Some y.
Proof.
  induction l as [|z l IH]; cbn; [contradiction|]. intros [-> | Hin] Hx.
  - rewrite Hx. eauto.
  - destruct (p z); eauto.
Qed.

Lemma sql_eq_null_r a : sql_eq a None = false.
Proof. destruct a; reflexivity. Qed.

(** *** Errors reaching the handler *)







(** *** What [main] prints *)

Definition same_out (c c' : Conn) : Prop := out c' = out c.

Lemma same_out_refl c : same_out c c.
Proof. reflexivity. Qed.

Lemma same_out_trans c1 c2 c3 :
  same_out c1 c2 -> same_out c2 c3 -> same_out c1 c3.
Proof. unfold same_out; congruence. Qed.

Lemma execute_same_out {A} fault (s : stmt A) :
  preserves same_out (execute fault s).
Proof.
  apply preserves_execute; [reflexivity|]. intros; reflexivity.
Qed.

Lemma body_same_out fault r :
  preserves same_out (process_row fault r;; commit fault).
Proof.
  unfold process_row, get_or_create_date, get_or_create_client,
    get_or_create_campaign, get_or_create_adset, get_or_create_ad,
    get_or_create_demographic, get_or_create_placement.
  preserve_with same_out_refl same_out_trans @execute_same_out.
  intros c res c' H. unfold commit in H.
  destruct (fault (tick c)); inversion H; reflexivity.
Qed.

Lemma import_row_out fault idx total r c c' :
  import_row fault idx total r c = (Ok tt, c') ->
  out c' = out c ++ [Progress idx total] \/
  exists e, out c' = out c ++ [Progress idx total; RowError idx e].
Proof.
  rewrite import_row_unfold. unfold try_db.
  destruct ((process_row fault r;; commit fault)
              (snd (print (Progress idx total) c))) as [[u|[msg|msg]] cb] eqn:E;
    apply body_same_out in E; unfold same_out in E; cbn [print snd out] in E.
  - intros H. inversion H; subst. left. exact E.
  - unfold bind, rollback. destruct (fault (tick cb)); [discriminate|].
    intros H. inversion H; subst. right. exists msg. cbn. rewrite E.
    rewrite <- app_assoc. reflexivity.
  - discriminate.
Qed.

Definition is_progress (l : line) : bool :=
  match l with Progress _ _ => true | _ => false end.

Definition row_line (l : line) : Prop :=
  match l with Progress _ _ | RowError _ _ => True | _ => False end.

Fixpoint progress_lines (idx total : Z) (n : nat) : list line :=
  match n with
  | O => []
  | S n' => Progress idx total :: progress_lines (idx + 1) total n'
  end.

Lemma import_rows_out fault rows : forall idx total c c',
  import_rows fault idx total rows c = (Ok tt, c') ->
  exists L, out c' = out c ++ L /\ Forall row_line L /\
            filter is_progress L = progress_lines idx total (List.length rows).
Proof.
  induction rows as [|r rows IH]; intros idx total c c' H.
  - inversion H; subst. exists []. rewrite app_nil_r. auto.
  - rewrite import_rows_cons in H.
    destruct (import_row fault idx total r c) as [[u|e] c1] eqn:E;
      [|discriminate]. destruct u.
    apply IH in H. destruct H as (L & HL & HF & HP).
    apply import_row_out in E. destruct E as [E | (e & E)].
    + exists (Progress idx total :: L). rewrite HL, E, <- app_assoc.
      split; [reflexivity|]. split; [constructor; [exact I | exact HF]|].
      cbn. rewrite HP. reflexivity.
    + exists (Progress idx total :: RowError idx e :: L).
      rewrite HL, E, <- app_assoc. split; [reflexivity|].
      split; [repeat constructor; assumption|]. cbn. rewrite HP. reflexivity.
Qed.

(** The lines printed for the record at position [idx]: its progress line,
    then, when its processing or commit raised the [pyodbc.Error] [e], the
    line with its position and [e]. *)
Definition row_report (idx total : Z) (o : option string) : list line :=
  Progress idx total :: match o with Some e => [RowError idx e] | None => [] end.

Fixpoint report (idx total : Z) (os : list (option string)) : list line :=
  match os with
  | [] => []
  | o :: os' => row_report idx total o ++ report (idx + 1) total os'
  end.

(** [rows_run fault idx total rows c os c']: the records [rows], the first
    at position [idx], are handled in order from [c] to [c'], and [os] gives
    each record's outcome: [None] when its processing and commit succeeded,
    [Some e] when they raised the [pyodbc.Error] [e] and the rollback then
    succeeded. *)
Inductive rows_run (fault : nat -> option string) :
  Z -> Z -> list csv_row -> Conn -> list (option string) -> Conn -> Prop :=
| rows_run_nil idx total c : rows_run fault idx total [] c [] c
| rows_run_ok idx total r rest c c1 os c2 :
    (process_row fault r;; commit fault)
      (snd (print (Progress idx total) c)) = (Ok tt, c1) ->
    rows_run fault (idx + 1) total rest c1 os c2 ->
    rows_run fault idx total (r :: rest) c (None :: os) c2
| rows_run_error idx total r rest c cb e c1 os c2 :
    (process_row fault r;; commit fault)
      (snd (print (Progress idx total) c)) = (Raise (DbError e), cb) ->
    rollback fault cb = (Ok tt, c1) ->
    rows_run fault (idx + 1) total rest (snd (print (RowError idx e) c1)) os c2 ->
    rows_run fault idx total (r :: rest) c (Some e :: os) c2.

Lemma rollback_same_out fault c c' :
  rollback fault c = (Ok tt, c') -> out c' = out c.
Proof.
  unfold rollback. destruct (fault (tick c)); intros H; inversion H; reflexivity.
Qed.

Lemma import_rows_run fault rows : forall idx total c c',
  import_rows fault idx total rows c = (Ok tt, c') ->
  exists os, rows_run fault idx total rows c os c' /\
             out c' = out c ++ report idx total os.
Proof.
  induction rows as [|r rows IH]; intros idx total c c' H.
  - inversion H; subst. exists []. split; [constructor|].
    rewrite app_nil_r. reflexivity.
  - rewrite import_rows_cons in H.
    destruct (import_row fault idx total r c) as [[u|e] c1] eqn:E;
      [|discriminate]. destruct u.
    apply IH in H. destruct H as (os & Hr & Ho).
    rewrite import_row_unfold in E. unfold try_db in E.
    destruct ((process_row fault r;; commit fault)
                (snd (print (Progress idx total) c))) as [[u|[msg|msg]] cb] eqn:B.
    + inversion E; subst; clear E.
      exists (None :: os). split; [econstructor; eauto|].
      apply body_same_out in B. unfold same_out in B. cbn [print snd out] in B.
      rewrite Ho, B. cbn [report row_report]. rewrite <- app_assoc. reflexivity.
    + unfold bind in E.
      destruct (rollback fault cb) as [[v|e'] cr] eqn:R; [|discriminate E].
      destruct v.
      change (print (RowError idx msg) cr = (Ok tt, c1)) in E.
      assert (Hc1 : c1 = snd (print (RowError idx msg) cr))
        by (rewrite E; reflexivity).
      subst c1. exists (Some msg :: os). split; [econstructor; eauto|].
      apply rollback_same_out in R.
      apply body_same_out in B. unfold same_out in B. cbn [print snd out] in B.
      rewrite Ho. cbn [report row_report print snd out]. rewrite R, B.
      rewrite <- !app_assoc. reflexivity.
    + discriminate E.
Qed.

(** *** Hierarchy of the dimension rows *)

Definition client_by_id (db : DB) (k : Z) : option Clients.row :=
  find (fun x => Clients.ClientID x =? k) (dim_Clients db).
Definition campaign_by_id (db : DB) (k : Z) : option Campaigns.row :=
  find (fun x => Campaigns.CampaignID x =? k) (dim_Campaigns db).
Definition adset_by_id (db : DB) (k : Z) : option AdSets.row :=
  find (fun x => AdSets.AdSetID x =? k) (dim_AdSets db).
Definition ad_by_id (db : DB) (k : Z) : option Ads.row :=
  find (fun x => Ads.AdID x =? k) (dim_Ads db).

(** Every row is the one found by its own [key]: the key is unique. *)
Definition self_lookup {X} (key : X -> Z) (l : list X) : Prop :=
  forall x, In x l -> find (fun z => key z =? key x) l = Some x.

(** Every key is below the next [IDENTITY] value. *)
Definition below {X} (key : X -> Z) (l : list X) (n : Z) : Prop :=
  forall x, In x l -> key x < n.

Definition idents_le (i i' : Idents) : Prop :=
  next_client i <= next_client i' /\ next_campaign i <= next_campaign i' /\
  next_adset i <= next_adset i' /\ next_ad i <= next_ad i' /\
  next_demographic i <= next_demographic i' /\
  next_placement i <= next_placement i'.

(** The four hierarchy tables only grow at their end. *)
Definition dims_extend (db db' : DB) : Prop :=
  exists l1 l2 l3 l4,
    dim_Clients db' = dim_Clients db ++ l1 /\
    dim_Campaigns db' = dim_Campaigns db ++ l2 /\
    dim_AdSets db' = dim_AdSets db ++ l3 /\
    dim_Ads db' = dim_Ads db ++ l4.

Section Hierarchy.
(** The hierarchy the input follows: the account of each campaign, the
    campaign of each ad set, the ad set of each ad (all by FBID). *)
Variables camp_owner adset_owner ad_owner : Z -> Z.

Definition consistent_row (r : csv_row) : Prop :=
  camp_owner (CampaignFBID r) = AccountFBID r /\
  adset_owner (AdSetFBID r) = CampaignFBID r /\
  ad_owner (AdFBID r) = AdSetFBID r.

(** Following the foreign keys of a fact row: its ad belongs to its ad
    set, which belongs to its campaign, which belongs to its client, and
    that client is the account of the campaign. *)
Definition fact_ok (db : DB) (f : Facts.row) : Prop :=
  exists ad adset cp cl,
    ad_by_id db (Facts.AdID f) = Some ad /\
    Ads.AdSetID ad = Facts.AdSetID f /\
    adset_by_id db (Facts.AdSetID f) = Some adset /\
    AdSets.CampaignID adset = Facts.CampaignID f /\
    campaign_by_id db (Facts.CampaignID f) = Some cp /\
    Campaigns.ClientID cp = Facts.ClientID f /\
    client_by_id db (Facts.ClientID f) = Some cl /\
    Clients.AccountFBID cl = camp_owner (Campaigns.CampaignFBID cp).

Record inv (db : DB) (ids : Idents) : Prop := {
  inv_client_below : below Clients.ClientID (dim_Clients db) (next_client ids);
  inv_campaign_below :
    below Campaigns.CampaignID (dim_Campaigns db) (next_campaign ids);
  inv_adset_below : below AdSets.AdSetID (dim_AdSets db) (next_adset ids);
  inv_ad_below : below Ads.AdID (dim_Ads db) (next_ad ids);
  inv_client_ids : self_lookup Clients.ClientID (dim_Clients db);
  inv_campaign_ids : self_lookup Campaigns.CampaignID (dim_Campaigns db);
  inv_adset_ids : self_lookup AdSets.AdSetID (dim_AdSets db);
  inv_ad_ids : self_lookup Ads.AdID (dim_Ads db);
  inv_client_fbids : self_lookup Clients.AccountFBID (dim_Clients db);
  inv_campaign_fbids : self_lookup Campaigns.CampaignFBID (dim_Campaigns db);
  inv_adset_fbids : self_lookup AdSets.AdSetFBID (dim_AdSets db);
  inv_campaign_parent : forall x, In x (dim_Campaigns db) ->
    exists cl, client_by_id db (Campaigns.ClientID x) = Some cl /\
               Clients.AccountFBID cl = camp_owner (Campaigns.CampaignFBID x);
  inv_adset_parent : forall x, In x (dim_AdSets db) ->
    exists cp, campaign_by_id db (AdSets.CampaignID x) = Some cp /\
               Campaigns.CampaignFBID cp = adset_owner (AdSets.AdSetFBID x);
  inv_ad_parent : forall x, In x (dim_Ads db) ->
    exists st, adset_by_id db (Ads.AdSetID x) = Some st /\
               AdSets.AdSetFBID st = ad_owner (Ads.AdFBID x);
  inv_facts : forall f, In f (fact_Metrics db) -> fact_ok db f }.

(** The loop invariant at the start of each row: the committed database
    satisfies [inv], and nothing is pending. *)
Definition loop_inv (c : Conn) : Prop :=
  inv (committed c) (idents c) /\ work c = committed c.
End Hierarchy.

(** **** Lists *)

Lemma find_app_some {X} (p : X -> bool) l m x :
  find p l = Some x -> find p (l ++ m) = Some x.
Proof.
  induction l as [|z l IH]; cbn; [discriminate|].
  destruct (p z); [tauto|exact IH].
Qed.

Lemma find_app_new {X} (p : X -> bool) l y :
  find p l = None -> p y = true -> find p (l ++ [y]) = Some y.
Proof.
  induction l as [|z l IH]; cbn; [intros _ ->; reflexivity|].
  destruct (p z); [discriminate|exact IH].
Qed.

Lemma find_in {X} (p : X -> bool) l x :
  find p l = Some x -> In x l /\ p x = true.
Proof. intros H. split; [eapply find_some; eauto | eapply find_some; eauto]. Qed.

Lemma self_lookup_app {X} (key : X -> Z) l y :
  self_lookup key l -> find (fun z => key z =? key y) l = None ->
  self_lookup key (l ++ [y]).
Proof.
  intros Hs Hy x Hx. apply in_app_or in Hx. destruct Hx as [Hx | [<- | []]].
  - apply find_app_some. apply Hs. exact Hx.
  - apply find_app_new; [exact Hy | apply Z.eqb_refl].
Qed.

Lemma self_lookup_unique {X} (key : X -> Z) l x x' :
  self_lookup key l -> In x l -> In x' l -> key x = key x' -> x = x'.
Proof.
  intros Hs Hx Hx' Hk. pose proof (Hs x Hx) as E. pose proof (Hs x' Hx') as E'.
  rewrite Hk in E. congruence.
Qed.

Lemma below_app {X} (key : X -> Z) l n y :
  below key l n -> key y = n -> below key (l ++ [y]) (n + 1).
Proof.
  intros Hb Hy x Hx. apply in_app_or in Hx. destruct Hx as [Hx | [<- | []]].
  - specialize (Hb x Hx). lia.
  - lia.
Qed.

Lemma below_mono {X} (key : X -> Z) l n m :
  below key l n -> n <= m -> below key l m.
Proof. intros Hb Hnm x Hx. specialize (Hb x Hx). lia. Qed.

Lemma below_find_none {X} (key : X -> Z) l n :
  below key l n -> find (fun z => key z =? n) l = None.
Proof.
  intros Hb. induction l as [|z l IH]; cbn; [reflexivity|].
  assert (Hz : key z < n) by (apply Hb; left; reflexivity).
  replace (key z =? n) with false by (symmetry; apply Z.eqb_neq; lia).
  apply IH. intros x Hx. apply Hb. right. exact Hx.
Qed.

(** **** Growing the hierarchy tables keeps the lookups *)

Lemma dims_extend_refl db : dims_extend db db.
Proof. exists [], [], [], []. rewrite !app_nil_r. auto. Qed.

Lemma dims_extend_trans db1 db2 db3 :
  dims_extend db1 db2 -> dims_extend db2 db3 -> dims_extend db1 db3.
Proof.
  intros (a1 & a2 & a3 & a4 & E1 & E2 & E3 & E4)
         (b1 & b2 & b3 & b4 & F1 & F2 & F3 & F4).
  exists (a1 ++ b1), (a2 ++ b2), (a3 ++ b3), (a4 ++ b4).
  rewrite F1, F2, F3, F4, E1, E2, E3, E4, <- !app_assoc. auto.
Qed.

Lemma by_id_extend db db' :
  dims_extend db db' ->
  (forall k x, client_by_id db k = Some x -> client_by_id db' k = Some x) /\
  (forall k x, campaign_by_id db k = Some x -> campaign_by_id db' k = Some x) /\
  (forall k x, adset_by_id db k = Some x -> adset_by_id db' k = Some x) /\
  (forall k x, ad_by_id db k = Some x -> ad_by_id db' k = Some x).
Proof.
  intros (l1 & l2 & l3 & l4 & E1 & E2 & E3 & E4).
  unfold client_by_id, campaign_by_id, adset_by_id, ad_by_id.
  rewrite E1, E2, E3, E4. repeat split; intros; apply find_app_some; assumption.
Qed.

Lemma fact_ok_extend co db db' f :
  dims_extend db db' -> fact_ok co db f -> fact_ok co db' f.
Proof.
  intros He (ad & st & cp & cl & H1 & H2 & H3 & H4 & H5 & H6 & H7 & H8).
  destruct (by_id_extend _ _ He) as (Ec & Ecp & Est & Ead).
  exists ad, st, cp, cl. repeat split; auto.
Qed.

Lemma idents_le_refl i : idents_le i i.
Proof. unfold idents_le; lia. Qed.

Lemma idents_le_trans i1 i2 i3 :
  idents_le i1 i2 -> idents_le i2 i3 -> idents_le i1 i3.
Proof. unfold idents_le; lia. Qed.

Lemma inv_idents_le co so ao db ids ids' :
  inv co so ao db ids -> idents_le ids ids' -> inv co so ao db ids'.
Proof.
  intros [] Hle. destruct Hle as (L1 & L2 & L3 & L4 & _).
  constructor; try assumption; eapply below_mono; eauto.
Qed.

Lemma by_id_in_key {X} (key : X -> Z) l k x :
  find (fun z => key z =? k) l = Some x -> In x l /\ key x = k.
Proof.
  intros H. apply find_in in H. destruct H as [H1 H2].
  apply Z.eqb_eq in H2. auto.
Qed.

Ltac get_select H :=
  apply execute_ok in H; destruct H as (_ & ?db & ?i & ?Hs & ->);
  match goal with
  | Hs : _ = (_, _, _) |- _ =>
      cbv beta delta [select_client select_campaign select_adset select_ad]
        in Hs;
      injection Hs as ?Ha ?Hdb ?Hi; subst
  end.

(** **** [get_or_create_client] *)

Lemma goc_client_ok co so ao fault a n c k c' :
  inv co so ao (work c) (idents c) ->
  get_or_create_client fault a n c = (Ok k, c') ->
  inv co so ao (work c') (idents c') /\ dims_extend (work c) (work c') /\
  fact_Metrics (work c') = fact_Metrics (work c) /\
  idents_le (idents c) (idents c') /\
  exists cl, client_by_id (work c') k = Some cl /\ Clients.AccountFBID cl = a.
Proof.
  intros Hi H. unfold get_or_create_client in H. split_binds. get_select Hm.
  destruct (find (fun r => Clients.AccountFBID r =? a) (dim_Clients (work c)))
    as [x|] eqn:Ef; cbn [option_map] in H.
  - cbn [ret] in H. injection H as <- <-. cbn [work next_tick set_work idents].
    split; [exact Hi|]. split; [apply dims_extend_refl|].
    split; [reflexivity|]. split; [apply idents_le_refl|].
    apply by_id_in_key in Ef. destruct Ef as [Hx Hp].
    exists x. split; [apply (inv_client_ids _ _ _ _ _ Hi x Hx) | exact Hp].
  - apply execute_ok in H. destruct H as (_ & db & i & Hs & ->).
    unfold insert_client in Hs. injection Hs as <- <- <-.
    cbn [work next_tick set_work idents].
    set (y := Clients.mk (next_client (idents c)) a n).
    assert (He : dims_extend (work c)
                   (upd_clients (work c) (dim_Clients (work c) ++ [y])))
      by (exists [y], [], [], []; rewrite !app_nil_r; auto).
    assert (Hnew : client_by_id (upd_clients (work c) (dim_Clients (work c) ++ [y]))
                     (next_client (idents c)) = Some y).
    { apply find_app_new; [|apply Z.eqb_refl].
      apply below_find_none, (inv_client_below _ _ _ _ _ Hi). }
    destruct (by_id_extend _ _ He) as (Ec & _ & _ & _).
    destruct Hi. split; [constructor|].
    + apply below_app; [assumption | reflexivity].
    + assumption.
    + assumption.
    + assumption.
    + apply self_lookup_app; [assumption|].
      apply below_find_none; assumption.
    + assumption.
    + assumption.
    + assumption.
    + apply self_lookup_app; assumption.
    + assumption.
    + assumption.
    + intros x Hx. destruct (inv_campaign_parent0 x Hx) as (cl & H1 & H2).
      exists cl. split; [apply Ec |]; assumption.
    + assumption.
    + assumption.
    + intros f Hf. eapply fact_ok_extend; [exact He|]. apply inv_facts0.
      exact Hf.
    + split; [exact He|]. split; [reflexivity|].
      split; [unfold idents_le; cbn; lia|]. exists y. auto.
Qed.

(** **** [get_or_create_campaign] *)

Lemma goc_campaign_ok co so ao fault client_id fbid n o c k c' :
  inv co so ao (work c) (idents c) ->
  (exists cl, client_by_id (work c) client_id = Some cl /\
              Clients.AccountFBID cl = co fbid) ->
  get_or_create_campaign fault client_id fbid n o c = (Ok k, c') ->
  inv co so ao (work c') (idents c') /\ dims_extend (work c) (work c') /\
  fact_Metrics (work c') = fact_Metrics (work c) /\
  idents_le (idents c) (idents c') /\
  exists cp, campaign_by_id (work c') k = Some cp /\
             Campaigns.CampaignFBID cp = fbid /\
             Campaigns.ClientID cp = client_id.
Proof.
  intros Hi (cl & Hcl & Hclf) H. unfold get_or_create_campaign in H.
  split_binds. get_select Hm.
  destruct (find (fun r => Campaigns.CampaignFBID r =? fbid)
              (dim_Campaigns (work c))) as [x|] eqn:Ef; cbn [option_map] in H.
  - cbn [ret] in H. injection H as <- <-. cbn [work next_tick set_work idents].
    split; [exact Hi|]. split; [apply dims_extend_refl|].
    split; [reflexivity|]. split; [apply idents_le_refl|].
    apply by_id_in_key in Ef. destruct Ef as [Hx Hp].
    exists x. split; [apply (inv_campaign_ids _ _ _ _ _ Hi x Hx)|].
    split; [exact Hp|].
    destruct (inv_campaign_parent _ _ _ _ _ Hi x Hx) as (cl' & Hcl' & Hf').
    apply by_id_in_key in Hcl. apply by_id_in_key in Hcl'.
    destruct Hcl as [Hin Hk], Hcl' as [Hin' Hk'].
    assert (cl = cl') as <-.
    { apply (self_lookup_unique _ _ _ _ (inv_client_fbids _ _ _ _ _ Hi));
        auto. rewrite Hclf, Hf', Hp. reflexivity. }
    congruence.
  - apply execute_ok in H. destruct H as (_ & db & i & Hs & ->).
    unfold insert_campaign in Hs. injection Hs as <- <- <-.
    cbn [work next_tick set_work idents].
    set (y := Campaigns.mk (next_campaign (idents c)) client_id fbid n o).
    set (db' := upd_campaigns (work c) (dim_Campaigns (work c) ++ [y])).
    assert (He : dims_extend (work c) db')
      by (exists [], [y], [], []; rewrite !app_nil_r; auto).
    assert (Hnew : campaign_by_id db' (next_campaign (idents c)) = Some y).
    { apply find_app_new; [|apply Z.eqb_refl].
      apply below_find_none, (inv_campaign_below _ _ _ _ _ Hi). }
    destruct (by_id_extend _ _ He) as (_ & Ecp & _ & _).
    destruct Hi. split; [constructor|].
    + assumption.
    + apply below_app; [assumption | reflexivity].
    + assumption.
    + assumption.
    + assumption.
    + apply self_lookup_app; [assumption|].
      apply below_find_none; assumption.
    + assumption.
    + assumption.
    + assumption.
    + apply self_lookup_app; assumption.
    + assumption.
    + intros x Hx. apply in_app_or in Hx. destruct Hx as [Hx | [<- | []]].
      * exact (inv_campaign_parent0 x Hx).
      * exists cl. split; assumption.
    + intros x Hx. destruct (inv_adset_parent0 x Hx) as (cp & H1 & H2).
      exists cp. split; [apply Ecp |]; assumption.
    + assumption.
    + intros f Hf. eapply fact_ok_extend; [exact He|]. apply inv_facts0.
      exact Hf.
    + split; [exact He|]. split; [reflexivity|].
      split; [unfold idents_le; cbn; lia|]. exists y. auto.
Qed.

(** **** [get_or_create_adset] *)

Lemma goc_adset_ok co so ao fault campaign_id fbid n c k c' :
  inv co so ao (work c) (idents c) ->
  (exists cp, campaign_by_id (work c) campaign_id = Some cp /\
              Campaigns.CampaignFBID cp = so fbid) ->
  get_or_create_adset fault campaign_id fbid n c = (Ok k, c') ->
  inv co so ao (work c') (idents c') /\ dims_extend (work c) (work c') /\
  fact_Metrics (work c') = fact_Metrics (work c) /\
  idents_le (idents c) (idents c') /\
  exists st, adset_by_id (work c') k = Some st /\
             AdSets.AdSetFBID st = fbid /\
             AdSets.CampaignID st = campaign_id.
Proof.
  intros Hi (cp & Hcp & Hcpf) H. unfold get_or_create_adset in H.
  split_binds. get_select Hm.
  destruct (find (fun r => AdSets.AdSetFBID r =? fbid)
              (dim_AdSets (work c))) as [x|] eqn:Ef; cbn [option_map] in H.
  - cbn [ret] in H. injection H as <- <-. cbn [work next_tick set_work idents].
    split; [exact Hi|]. split; [apply dims_extend_refl|].
    split; [reflexivity|]. split; [apply idents_le_refl|].
    apply by_id_in_key in Ef. destruct Ef as [Hx Hp].
    exists x. split; [apply (inv_adset_ids _ _ _ _ _ Hi x Hx)|].
    split; [exact Hp|].
    destruct (inv_adset_parent _ _ _ _ _ Hi x Hx) as (cp' & Hcp' & Hf').
    apply by_id_in_key in Hcp. apply by_id_in_key in Hcp'.
    destruct Hcp as [Hin Hk], Hcp' as [Hin' Hk'].
    assert (cp = cp') as <-.
    { apply (self_lookup_unique _ _ _ _ (inv_campaign_fbids _ _ _ _ _ Hi));
        auto. rewrite Hcpf, Hf', Hp. reflexivity. }
    congruence.
  - apply execute_ok in H. destruct H as (_ & db & i & Hs & ->).
    unfold insert_adset in Hs. injection Hs as <- <- <-.
    cbn [work next_tick set_work idents].
    set (y := AdSets.mk (next_adset (idents c)) campaign_id fbid n).
    set (db' := upd_adsets (work c) (dim_AdSets (work c) ++ [y])).
    assert (He : dims_extend (work c) db')
      by (exists [], [], [y], []; rewrite !app_nil_r; auto).
    assert (Hnew : adset_by_id db' (next_adset (idents c)) = Some y).
    { apply find_app_new; [|apply Z.eqb_refl].
      apply below_find_none, (inv_adset_below _ _ _ _ _ Hi). }
    destruct (by_id_extend _ _ He) as (_ & _ & Est & _).
    destruct Hi. split; [constructor|].
    + assumption.
    + assumption.
    + apply below_app; [assumption | reflexivity].
    + assumption.
    + assumption.
    + assumption.
    + apply self_lookup_app; [assumption|].
      apply below_find_none; assumption.
    + assumption.
    + assumption.
    + assumption.
    + apply self_lookup_app; assumption.
    + assumption.
    + intros x Hx. apply in_app_or in Hx. destruct Hx as [Hx | [<- | []]].
      * exact (inv_adset_parent0 x Hx).
      * exists cp. split; assumption.
    + intros x Hx. destruct (inv_ad_parent0 x Hx) as (st & H1 & H2).
      exists st. split; [apply Est |]; assumption.
    + intros f Hf. eapply fact_ok_extend; [exact He|]. apply inv_facts0.
      exact Hf.
    + split; [exact He|]. split; [reflexivity|].
      split; [unfold idents_le; cbn; lia|]. exists y. auto.
Qed.

(** **** [get_or_create_ad] *)

Lemma goc_ad_ok co so ao fault adset_id fbid n b t l c k c' :
  inv co so ao (work c) (idents c) ->
  (exists st, adset_by_id (work c) adset_id = Some st /\
              AdSets.AdSetFBID st = ao fbid) ->
  get_or_create_ad fault adset_id fbid n b t l c = (Ok k, c') ->
  inv co so ao (work c') (idents c') /\ dims_extend (work c) (work c') /\
  fact_Metrics (work c') = fact_Metrics (work c) /\
  idents_le (idents c) (idents c') /\
  exists ad, ad_by_id (work c') k = Some ad /\ Ads.AdSetID ad = adset_id.
Proof.
  intros Hi (st & Hst & Hstf) H. unfold get_or_create_ad in H.
  split_binds. get_select Hm.
  destruct (find (fun r => Ads.AdFBID r =? fbid) (dim_Ads (work c)))
    as [x|] eqn:Ef; cbn [option_map] in H.
  - cbn [ret] in H. injection H as <- <-. cbn [work next_tick set_work idents].
    split; [exact Hi|]. split; [apply dims_extend_refl|].
    split; [reflexivity|]. split; [apply idents_le_refl|].
    apply by_id_in_key in Ef. destruct Ef as [Hx Hp].
    exists x. split; [apply (inv_ad_ids _ _ _ _ _ Hi x Hx)|].
    destruct (inv_ad_parent _ _ _ _ _ Hi x Hx) as (st' & Hst' & Hf').
    apply by_id_in_key in Hst. apply by_id_in_key in Hst'.
    destruct Hst as [Hin Hk], Hst' as [Hin' Hk'].
    assert (st = st') as <-.
    { apply (self_lookup_unique _ _ _ _ (inv_adset_fbids _ _ _ _ _ Hi));
        auto. rewrite Hstf, Hf', Hp. reflexivity. }
    congruence.
  - apply execute_ok in H. destruct H as (_ & db & i & Hs & ->).
    unfold insert_ad in Hs. injection Hs as <- <- <-.
    cbn [work next_tick set_work idents].
    set (y := Ads.mk (next_ad (idents c)) adset_id fbid n b t l).
    set (db' := upd_ads (work c) (dim_Ads (work c) ++ [y])).
    assert (He : dims_extend (work c) db')
      by (exists [], [], [], [y]; rewrite !app_nil_r; auto).
    assert (Hnew : ad_by_id db' (next_ad (idents c)) = Some y).
    { apply find_app_new; [|apply Z.eqb_refl].
      apply below_find_none, (inv_ad_below _ _ _ _ _ Hi). }
    destruct Hi. split; [constructor|].
    + assumption.
    + assumption.
    + assumption.
    + apply below_app; [assumption | reflexivity].
    + assumption.
    + assumption.
    + assumption.
    + apply self_lookup_app; [assumption|].
      apply below_find_none; assumption.
    + assumption.
    + assumption.
    + assumption.
    + assumption.
    + assumption.
    + intros x Hx. apply in_app_or in Hx. destruct Hx as [Hx | [<- | []]].
      * exact (inv_ad_parent0 x Hx).
      * exists st. split; [exact Hst | rewrite Hstf; reflexivity].
    + intros f Hf. eapply fact_ok_extend; [exact He|]. apply inv_facts0.
      exact Hf.
    + split; [exact He|]. split; [reflexivity|].
      split; [unfold idents_le; cbn; lia|]. exists y. auto.
Qed.

(** **** Steps that leave the hierarchy tables alone *)

Definition hier_kept (c c' : Conn) : Prop :=
  dim_Clients (work c') = dim_Clients (work c) /\
  dim_Campaigns (work c') = dim_Campaigns (work c) /\
  dim_AdSets (work c') = dim_AdSets (work c) /\
  dim_Ads (work c') = dim_Ads (work c) /\
  fact_Metrics (work c') = fact_Metrics (work c) /\
  idents_le (idents c) (idents c').

Lemma hier_kept_refl c : hier_kept c c.
Proof. repeat split; try reflexivity; apply idents_le_refl. Qed.

Lemma hier_kept_trans c1 c2 c3 :
  hier_kept c1 c2 -> hier_kept c2 c3 -> hier_kept c1 c3.
Proof.
  intros (A1 & A2 & A3 & A4 & A5 & A6) (B1 & B2 & B3 & B4 & B5 & B6).
  refine (conj _ (conj _ (conj _ (conj _ (conj _ _))))); try congruence.
  eapply idents_le_trans; eauto.
Qed.

Lemma hier_kept_tick c : hier_kept c (next_tick c).
Proof. exact (hier_kept_refl c). Qed.

Definition idents_grow (c c' : Conn) : Prop := idents_le (idents c) (idents c').

Lemma idents_grow_refl c : idents_grow c c.
Proof. apply idents_le_refl. Qed.

Lemma idents_grow_trans c1 c2 c3 :
  idents_grow c1 c2 -> idents_grow c2 c3 -> idents_grow c1 c3.
Proof. apply idents_le_trans. Qed.

Lemma idents_grow_tick c : idents_grow c (next_tick c).
Proof. exact (idents_le_refl (idents c)). Qed.

Ltac preserve_stmts Hrefl Htrans Htick :=
  repeat first
    [ apply (preserves_bind _ Htrans); [|intro]
    | apply (preserves_ret _ Hrefl)
    | apply (preserves_raise _ Hrefl)
    | apply (preserves_execute _ _ _ Htick);
        intros ? ? ? ?; cbv [select_client insert_client select_campaign
            insert_campaign select_adset insert_adset select_ad insert_ad
            select_date insert_date select_demographic insert_demographic
            select_placement insert_placement delete_facts insert_fact];
        intro Hs; inversion Hs; subst;
        repeat split; cbn; try reflexivity; unfold idents_le; cbn; lia
    | match goal with
      | |- preserves _ (match ?x with _ => _ end) => destruct x
      | |- preserves _ (if ?x then _ else _) => destruct x
      end ].

Lemma independent_dims_hier_kept fault d a g p dv q :
  preserves hier_kept (get_or_create_date fault d) /\
  preserves hier_kept (get_or_create_demographic fault a g) /\
  preserves hier_kept (get_or_create_placement fault p dv q).
Proof.
  unfold get_or_create_date, get_or_create_demographic,
    get_or_create_placement.
  split; [|split]; preserve_stmts hier_kept_refl hier_kept_trans hier_kept_tick.
Qed.

Lemma body_idents_grow fault r :
  preserves idents_grow (process_row fault r;; commit fault).
Proof.
  unfold process_row, get_or_create_date, get_or_create_client,
    get_or_create_campaign, get_or_create_adset, get_or_create_ad,
    get_or_create_demographic, get_or_create_placement.
  preserve_stmts idents_grow_refl idents_grow_trans idents_grow_tick.
  intros c res c' H. unfold commit in H.
  destruct (fault (tick c)); inversion H; apply idents_le_refl.
Qed.

Lemma hier_kept_extend c c' : hier_kept c c' -> dims_extend (work c) (work c').
Proof.
  intros (E1 & E2 & E3 & E4 & _). exists [], [], [], [].
  rewrite E1, E2, E3, E4, !app_nil_r. auto.
Qed.

(** [inv] only reads the hierarchy tables, the fact table and the
    counters. *)
Lemma inv_hier_kept co so ao c c' :
  inv co so ao (work c) (idents c) -> hier_kept c c' ->
  inv co so ao (work c') (idents c').
Proof.
  intros Hi Hk. pose proof (hier_kept_extend _ _ Hk) as He.
  destruct Hk as (E1 & E2 & E3 & E4 & E5 & Hle).
  apply (inv_idents_le _ _ _ _ (idents c)); [|exact Hle].
  destruct Hi. constructor;
    try (unfold client_by_id, campaign_by_id, adset_by_id, ad_by_id;
         rewrite ?E1, ?E2, ?E3, ?E4; assumption).
  intros f Hf. rewrite E5 in Hf. eapply fact_ok_extend; [exact He|].
  apply inv_facts0. exact Hf.
Qed.



(** **** A whole row *)

Lemma inv_new_facts co so ao db db' ids f :
  inv co so ao db ids ->
  dim_Clients db' = dim_Clients db -> dim_Campaigns db' = dim_Campaigns db ->
  dim_AdSets db' = dim_AdSets db -> dim_Ads db' = dim_Ads db ->
  (forall g, In g (fact_Metrics db') -> In g (fact_Metrics db) \/ g = f) ->
  fact_ok co db f ->
  inv co so ao db' ids.
Proof.
  intros Hi E1 E2 E3 E4 Hsub Hf.
  assert (He : dims_extend db db').
  { exists [], [], [], []. rewrite E1, E2, E3, E4, !app_nil_r. auto. }
  destruct Hi. constructor;
    try (unfold client_by_id, campaign_by_id, adset_by_id, ad_by_id;
         rewrite ?E1, ?E2, ?E3, ?E4; assumption).
  intros g Hg. eapply fact_ok_extend; [exact He|].
  destruct (Hsub g Hg) as [Hg' | ->]; [apply inv_facts0; exact Hg' | exact Hf].
Qed.

Lemma process_row_inv co so ao fault r c c' :
  consistent_row co so ao r ->
  inv co so ao (work c) (idents c) ->
  process_row fault r c = (Ok tt, c') ->
  inv co so ao (work c') (idents c').
Proof.
  intros (Hco & Hso & Hao) Hi H. unfold process_row in H. split_binds.
  destruct (independent_dims_hier_kept fault (FullDate r) (AgeBracket r)
              (Gender r) (Platform r) (Device r) (Position r))
    as (Hd & Hde & Hp).
  apply Hd in Hm. apply Hde in Hm4. apply Hp in Hm5.
  pose proof (inv_hier_kept _ _ _ _ _ Hi Hm) as Hi0.
  destruct (goc_client_ok co so ao _ _ _ _ _ _ Hi0 Hm0)
    as (Hi1 & He1 & _ & _ & cl & Hcl & Hclf).
  assert (Pre2 : exists cl, client_by_id (work c1) a0 = Some cl /\
                            Clients.AccountFBID cl = co (CampaignFBID r))
    by (exists cl; split; [exact Hcl | rewrite Hclf, Hco; reflexivity]).
  destruct (goc_campaign_ok co so ao _ _ _ _ _ _ _ _ Hi1 Pre2 Hm1)
    as (Hi2 & He2 & _ & _ & cp & Hcp & Hcpf & Hcpc).
  assert (Pre3 : exists cp, campaign_by_id (work c2) a1 = Some cp /\
                            Campaigns.CampaignFBID cp = so (AdSetFBID r))
    by (exists cp; split; [exact Hcp | rewrite Hcpf, Hso; reflexivity]).
  destruct (goc_adset_ok co so ao _ _ _ _ _ _ _ Hi2 Pre3 Hm2)
    as (Hi3 & He3 & _ & _ & st & Hst & Hstf & Hstc).
  assert (Pre4 : exists st, adset_by_id (work c3) a2 = Some st /\
                            AdSets.AdSetFBID st = ao (AdFBID r))
    by (exists st; split; [exact Hst | rewrite Hstf, Hao; reflexivity]).
  destruct (goc_ad_ok co so ao _ _ _ _ _ _ _ _ _ _ Hi3 Pre4 Hm3)
    as (Hi4 & He4 & _ & _ & ad & Had & Hadc).
  pose proof (inv_hier_kept _ _ _ _ _ (inv_hier_kept _ _ _ _ _ Hi4 Hm4) Hm5)
    as Hi6.
  assert (E46 : dims_extend (work c4) (work c6))
    by (eapply dims_extend_trans; apply hier_kept_extend; eassumption).
  assert (E36 : dims_extend (work c3) (work c6))
    by (eapply dims_extend_trans; eassumption).
  assert (E26 : dims_extend (work c2) (work c6))
    by (eapply dims_extend_trans; eassumption).
  assert (E16 : dims_extend (work c1) (work c6))
    by (eapply dims_extend_trans; eassumption).
  apply execute_ok in Hm6. destruct Hm6 as (_ & db & i & Hs & ->).
  apply execute_ok in H. destruct H as (_ & db' & i' & Hs' & ->).
  unfold delete_facts in Hs. injection Hs; intros; subst db i.
  unfold insert_fact in Hs'. injection Hs'; intros; subst db' i'.
  cbn [work idents next_tick set_work].
  eapply (inv_new_facts _ _ _ (work c6)); try reflexivity; [exact Hi6| |].
  - intros g Hg. cbn in Hg. apply in_app_or in Hg.
    destruct Hg as [Hg | [<- | []]]; [left | right; reflexivity].
    apply filter_In in Hg. apply Hg.
  - destruct (by_id_extend _ _ E46) as (_ & _ & _ & X4).
    destruct (by_id_extend _ _ E36) as (_ & _ & X3 & _).
    destruct (by_id_extend _ _ E26) as (_ & X2 & _ & _).
    destruct (by_id_extend _ _ E16) as (X1 & _ & _ & _).
    exists ad, st, cp, cl. cbn [Facts.AdID Facts.AdSetID Facts.CampaignID
                                Facts.ClientID].
    repeat split; auto. rewrite Hclf, Hcpf, Hco. reflexivity.
Qed.

Lemma import_row_inv co so ao fault idx total r c res c' :
  consistent_row co so ao r -> loop_inv co so ao c ->
  import_row fault idx total r c = (res, c') ->
  inv co so ao (committed c') (idents c') /\
  (res = Ok tt -> loop_inv co so ao c').
Proof.
  intros Hr (Hi & Hw). rewrite import_row_unfold. unfold try_db.
  destruct ((process_row fault r;; commit fault)
              (snd (print (Progress idx total) c))) as [[u|e] cb] eqn:E.
  - intros H. inversion H; subst res c'. clear H.
    apply bind_ok in E. destruct E as (u' & c1 & Hp & Hc).
    destruct u'. apply (process_row_inv co so ao) in Hp;
      [|exact Hr | cbn; rewrite Hw; exact Hi].
    unfold commit in Hc. destruct (fault (tick c1)); [discriminate|].
    inversion Hc; subst. cbn. split; [exact Hp|]. intros _. split; auto.
  - pose proof (body_fail_same_committed _ _ _ _ _ E) as Hc.
    pose proof (body_idents_grow _ _ _ _ _ E) as Hg.
    cbn [print snd committed idents] in Hc, Hg. unfold idents_grow in Hg.
    cbn [idents] in Hg.
    assert (Hb : inv co so ao (committed cb) (idents cb))
      by (rewrite Hc; eapply inv_idents_le; eauto).
    destruct e as [msg|msg].
    + unfold bind, rollback. destruct (fault (tick cb)); intros H;
        inversion H; subst; cbn; [split; [exact Hb | discriminate]|].
      split; [exact Hb|]. intros _. split; [exact Hb | reflexivity].
    + intros H. inversion H; subst. split; [exact Hb | discriminate].
Qed.

Lemma import_rows_inv co so ao fault rows : forall idx total c res c',
  Forall (consistent_row co so ao) rows -> loop_inv co so ao c ->
  import_rows fault idx total rows c = (res, c') ->
  inv co so ao (committed c') (idents c') /\
  (res = Ok tt -> loop_inv co so ao c').
Proof.
  induction rows as [|r rows IH]; intros idx total c res c' Hf Hl H.
  - inversion H; subst. split; [exact (proj1 Hl) | intros _; exact Hl].
  - inversion Hf as [|? ? Hr Hrs]; subst. rewrite import_rows_cons in H.
    destruct (import_row fault idx total r c) as [[u|e] c1] eqn:E.
    + destruct u. apply (import_row_inv co so ao) in E; [|exact Hr|exact Hl].
      destruct E as [_ Hl1]. eapply IH; [exact Hrs | exact (Hl1 eq_refl) | exact H].
    + apply (import_row_inv co so ao) in E; [|exact Hr|exact Hl].
      inversion H; subst. split; [exact (proj1 E) | discriminate].
Qed.

(** **** Lookups on a non-[NULL] value *)

Lemma sql_eq_some_refl (a : text) : a <> None -> sql_eq a a = true.
Proof. destruct a as [s|]; [intros _; apply String.eqb_refl | congruence]. Qed.

Ltac key_found Ef Hs0 :=
  apply by_id_in_key in Ef; destruct Ef as [Hx Hp];
  eexists; split; [apply Hs0; exact Hx | exact Hp].

(** **** The date key *)

Lemma get_or_create_date_returns_key fault d c k c' :
  valid_date d -> get_or_create_date fault (TS d) c = (Ok k, c') ->
  k = year d * 10000 + month d * 100 + day d.
Proof.
  intros Hv H. unfold get_or_create_date in H.
  rewrite (py_int_strftime d Hv) in H. split_binds.
  destruct a; [cbn [ret] in H; injection H; intros; subst; reflexivity|].
  split_binds. cbn [ret] in H. injection H; intros; subst. reflexivity.
Qed.

(** **** Runs with a driver that never fails *)

(** A computation that ends normally from every state. *)
Definition never_fails {A} (m : M A) : Prop :=
  forall c, exists a c', m c = (Ok a, c').

Lemma never_fails_ret {A} (a : A) : never_fails (ret a).
Proof. intros c. exists a, c. reflexivity. Qed.

Lemma never_fails_bind {A B} (m : M A) (k : A -> M B) :
  never_fails m -> (forall a, never_fails (k a)) -> never_fails (bind m k).
Proof.
  intros Hm Hk c. destruct (Hm c) as (a & c1 & E).
  destruct (Hk a c1) as (b & c2 & E2). exists b, c2.
  unfold bind. rewrite E. exact E2.
Qed.

Lemma never_fails_execute {A} fault (s : stmt A) :
  (forall t, fault t = None) -> never_fails (execute fault s).
Proof.
  intros Hf c. unfold execute. rewrite Hf.
  destruct (s (work c) (idents c)) as [[a db] i]. eauto.
Qed.

Ltac never_fails_tac Hf :=
  repeat first
    [ apply never_fails_bind; [|intro]
    | apply never_fails_ret
    | apply (never_fails_execute _ _ Hf)
    | match goal with
      | |- never_fails (match ?x with _ => _ end) => destruct x
      | |- never_fails (if ?x then _ else _) => destruct x
      end ].

(** A row whose date cell holds a date (not [NaT]). *)

Definition dated_row (r : csv_row) : Prop :=
  exists d, FullDate r = TS d /\ valid_date d.

Lemma process_row_never_fails fault r :
  (forall t, fault t = None) -> dated_row r -> never_fails (process_row fault r).
Proof.
  intros Hf (d & Hd & Hv). unfold process_row. rewrite Hd.
  apply never_fails_bind; [|intro].
  - unfold get_or_create_date. rewrite (py_int_strftime d Hv).
    never_fails_tac Hf.
  - unfold get_or_create_client, get_or_create_campaign, get_or_create_adset,
      get_or_create_ad, get_or_create_demographic, get_or_create_placement.
    never_fails_tac Hf.
Qed.

Lemma import_rows_healthy fault rows :
  (forall t, fault t = None) -> Forall dated_row rows ->
  forall idx total c, work c = committed c ->
  exists c', import_rows fault idx total rows c = (Ok tt, c') /\
    out c' = out c ++ progress_lines idx total (List.length rows) /\
    work c' = committed c'.
Proof.
  intros Hf Hrows. induction Hrows as [|r rows Hr Hrs IH];
    intros idx total c Hw.
  - exists c. rewrite app_nil_r. auto.
  - rewrite import_rows_cons, import_row_unfold.
    set (c1 := snd (print (Progress idx total) c)).
    destruct (process_row_never_fails fault r Hf Hr c1) as ([] & c2 & Hp).
    assert (Hb : (process_row fault r;; commit fault) c1 =
                 (Ok tt, next_tick (set_committed c2 (work c2)))).
    { unfold bind at 1. rewrite Hp. unfold commit. rewrite Hf. reflexivity. }
    pose proof (body_same_out fault r _ _ _ Hb) as Ho.
    unfold try_db. rewrite Hb.
    destruct (IH (idx + 1) total (next_tick (set_committed c2 (work c2))))
      as (c' & E & Hout & Hw'); [reflexivity|].
    exists c'. split; [exact E|]. split; [|exact Hw'].
    rewrite Hout. unfold same_out in Ho. rewrite Ho. cbn.
    rewrite <- app_assoc. reflexivity.
Qed.

(** **** Properties of the committed database kept by the loop

    A property of the working database that every successful
    [process_row] keeps holds of the committed database after [main]:
    only [commit] writes it, right after a successful row. *)

Section Committed.
Variable Q : DB -> Prop.
Hypothesis Q_row : forall fault r c c',
  Q (work c) -> process_row fault r c = (Ok tt, c') -> Q (work c').

Lemma import_row_committed fault idx total r c res c' :
  Q (committed c) -> work c = committed c ->
  import_row fault idx total r c = (res, c') ->
  Q (committed c') /\ (res = Ok tt -> work c' = committed c').
Proof.
  intros HQ Hw. rewrite import_row_unfold. unfold try_db.
  destruct ((process_row fault r;; commit fault)
              (snd (print (Progress idx total) c))) as [[u|e] cb] eqn:E.
  - intros H. inversion H; subst res c'. clear H.
    apply bind_ok in E. destruct E as (u' & c1 & Hp & Hc). destruct u'.
    apply Q_row in Hp; [|cbn; rewrite Hw; exact HQ].
    unfold commit in Hc. destruct (fault (tick c1)); [discriminate|].
    inversion Hc; subst. cbn. auto.
  - pose proof (body_fail_same_committed _ _ _ _ _ E) as Hc.
    cbn [print snd committed] in Hc.
    destruct e as [msg|msg].
    + unfold bind, rollback. destruct (fault (tick cb)); intros H;
        inversion H; subst; cbn; rewrite Hc;
        [split; [exact HQ | discriminate]|].
      split; [exact HQ | reflexivity].
    + intros H. inversion H; subst. rewrite Hc. split; [exact HQ | discriminate].
Qed.

Lemma import_rows_committed fault rows : forall idx total c res c',
  Q (committed c) -> work c = committed c ->
  import_rows fault idx total rows c = (res, c') ->
  Q (committed c') /\ (res = Ok tt -> work c' = committed c').
Proof.
  induction rows as [|r rows IH]; intros idx total c res c' HQ Hw H.
  - inversion H; subst. auto.
  - rewrite import_rows_cons in H.
    destruct (import_row fault idx total r c) as [[u|e] c1] eqn:E;
      apply import_row_committed in E; auto; destruct E as [HQ1 Hw1].
    + destruct u. eapply IH; [exact HQ1 | exact (Hw1 eq_refl) | exact H].
    + inversion H; subst. split; [exact HQ1 | discriminate].
Qed.

Lemma main_committed fault rows c res c' :
  Q (committed c) -> work c = committed c ->
  main fault rows c = (res, c') -> Q (committed c').
Proof.
  intros HQ Hw H. unfold main, bind at 1 in H. cbn [print] in H.
  unfold bind in H.
  destruct (import_rows fault 1 (Z.of_nat (List.length rows)) rows
              (mkConn (committed c) (work c) (idents c) (tick c)
                      (out c ++ [Start]))) as [[u|e] c1] eqn:E;
    apply import_rows_committed in E; auto; destruct E as [HQ1 _].
  - cbn [print] in H. inversion H; subst. exact HQ1.
  - inversion H; subst. exact HQ1.
Qed.
End Committed.

(** **** At most one fact row per grain *)

Definition grain_unique (F : list Facts.row) : Prop :=
  forall g, (List.length (filter (fun x => grain_eqb (grain x) g) F) <= 1)%nat.

Lemma process_row_grain_unique fault r c c' :
  grain_unique (fact_Metrics (work c)) ->
  process_row fault r c = (Ok tt, c') ->
  grain_unique (fact_Metrics (work c')).
Proof.
  intros Hu H. apply process_row_ok_facts in H. destruct H as (f & _ & Hf).
  intros g. rewrite Hf, replace_facts_at.
  destruct (grain_eqb g (grain f)); [cbn; lia | apply Hu].
Qed.

(** **** Dimension tables only grow *)

Definition prefix {X} (l l' : list X) : Prop := exists s, l' = l ++ s.

Definition dims_prefix (db db' : DB) : Prop :=
  prefix (dim_Clients db) (dim_Clients db') /\
  prefix (dim_Campaigns db) (dim_Campaigns db') /\
  prefix (dim_AdSets db) (dim_AdSets db') /\
  prefix (dim_Ads db) (dim_Ads db') /\
  prefix (dim_Date db) (dim_Date db') /\
  prefix (dim_Demographics db) (dim_Demographics db') /\
  prefix (dim_Placements db) (dim_Placements db').

Lemma prefix_refl {X} (l : list X) : prefix l l.
Proof. exists []. rewrite app_nil_r. reflexivity. Qed.

Lemma prefix_trans {X} (l1 l2 l3 : list X) :
  prefix l1 l2 -> prefix l2 l3 -> prefix l1 l3.
Proof. intros [s1 ->] [s2 ->]. exists (s1 ++ s2). symmetry. apply app_assoc. Qed.

Lemma prefix_snoc {X} (l : list X) y : prefix l (l ++ [y]).
Proof. exists [y]. reflexivity. Qed.

Lemma dims_prefix_refl db : dims_prefix db db.
Proof. repeat split; apply prefix_refl. Qed.

Lemma dims_prefix_trans db1 db2 db3 :
  dims_prefix db1 db2 -> dims_prefix db2 db3 -> dims_prefix db1 db3.
Proof.
  intros (A1 & A2 & A3 & A4 & A5 & A6 & A7) (B1 & B2 & B3 & B4 & B5 & B6 & B7).
  repeat split; eapply prefix_trans; eassumption.
Qed.

Definition dims_grow (c c' : Conn) : Prop := dims_prefix (work c) (work c').

Lemma dims_grow_refl c : dims_grow c c.
Proof. apply dims_prefix_refl. Qed.

Lemma dims_grow_trans c1 c2 c3 :
  dims_grow c1 c2 -> dims_grow c2 c3 -> dims_grow c1 c3.
Proof. apply dims_prefix_trans. Qed.

Lemma dims_grow_tick c : dims_grow c (next_tick c).
Proof. exact (dims_grow_refl c). Qed.

Lemma process_row_dims_grow fault r : preserves dims_grow (process_row fault r).
Proof.
  unfold process_row, get_or_create_date, get_or_create_client,
    get_or_create_campaign, get_or_create_adset, get_or_create_ad,
    get_or_create_demographic, get_or_create_placement.
  repeat first
    [ apply (preserves_bind _ dims_grow_trans); [|intro]
    | apply (preserves_ret _ dims_grow_refl)
    | apply (preserves_raise _ dims_grow_refl)
    | apply (preserves_execute _ _ _ dims_grow_tick);
        intros ? ? ? ?; cbv [select_client insert_client select_campaign
            insert_campaign select_adset insert_adset select_ad insert_ad
            select_date insert_date select_demographic insert_demographic
            select_placement insert_placement delete_facts insert_fact];
        intro Hs; inversion Hs; subst; unfold dims_grow, dims_prefix;
        repeat match goal with |- _ /\ _ => split end;
        cbn; first [apply prefix_snoc | apply prefix_refl]
    | match goal with
      | |- preserves _ (match ?x with _ => _ end) => destruct x
      | |- preserves _ (if ?x then _ else _) => destruct x
      end ].
Qed.

(** ** Sample runs *)

(** Two sets of measures for the same grain. *)
Definition m100 : measures := mkmeasures 100 1000 800 20 2 50 10 8 6 4 2 2 50.
Definition m150 : measures := mkmeasures 150 1500 1200 30 3 75 15 12 9 6 3 3 50.

(** A row for 2024-03-07, account 1, campaign 10, ad set 100, ad 1000. *)
Definition row1 : csv_row :=
  mkrow (TS (mkdate 2024 3 7)) 1 None 10 None None 100 None 1000
        None None None None (Some "18-24"%string) (Some "male"%string)
        (Some "fb"%string) (Some "mobile"%string) (Some "feed"%string) m100.

(** The same grain again, with new measures. *)
Definition row1_again : csv_row :=
  mkrow (TS (mkdate 2024 3 7)) 1 None 10 None None 100 None 1000
        None None None None (Some "18-24"%string) (Some "male"%string)
        (Some "fb"%string) (Some "mobile"%string) (Some "feed"%string) m150.

(** The same row with a missing date: [pd.read_csv(..., parse_dates=...)]
    reads an empty date cell as [NaT]. *)
Definition row_nat : csv_row :=
  mkrow NaT 1 None 10 None None 100 None 1000
        None None None None (Some "18-24"%string) (Some "male"%string)
        (Some "fb"%string) (Some "mobile"%string) (Some "feed"%string) m100.

(** Same campaign, ad set and ad as [row1], reported under account 2. *)
Definition row2_other_account : csv_row :=
  mkrow (TS (mkdate 2024 3 7)) 2 None 10 None None 100 None 1000
        None None None None (Some "18-24"%string) (Some "male"%string)
        (Some "fb"%string) (Some "mobile"%string) (Some "feed"%string) m100.

(** A driver that never fails, and one that fails at one statement only. *)
Definition nofault (t : nat) : option string := None.
Definition fault_at (n t : nat) : option string :=
  if Nat.eqb t n then Some "HY000"%string else None.
Definition faults_at (ns : list nat) (t : nat) : option string :=
  if existsb (Nat.eqb t) ns then Some "HY000"%string else None.

(** A fresh connection to an empty database, and the state after [row1]
    was imported into it. *)
Definition c0 : Conn := session empty_db fresh_idents.
Definition c1 : Conn := snd (main nofault [row1] c0).

(** The hierarchy of the sample rows: campaign 10 under account 1, ad set
    100 under campaign 10, ad 1000 under ad set 100. *)
Definition sample_camp_owner (fbid : Z) : Z := 1.
Definition sample_adset_owner (fbid : Z) : Z := 10.
Definition sample_ad_owner (fbid : Z) : Z := 100.

Lemma inv_empty co so ao : inv co so ao empty_db fresh_idents.
Proof. constructor; cbn; intros ? []. Qed.

(** ** Claims *)

(** C1: after a row is processed, the fact table holds exactly one fact row
    at the grain (date key, ad key, demographic key, placement key) of that
    row, with the row's measures verbatim; whatever was at that grain
    before is gone, and every other grain keeps its fact rows. *)
Theorem process_row_last_write_wins fault r c c' :
  process_row fault r c = (Ok tt, c') ->
  exists f, Facts.Measures f = row_measures r /\
    forall g, facts_at g (work c') =
      if grain_eqb g (grain f) then [f] else facts_at g (work c).
Proof.
  intros H. apply process_row_ok_facts in H. destruct H as (f & Hm & Hf).
  exists f. split; [assumption|]. intros g. unfold facts_at.
  rewrite Hf. apply replace_facts_at.
Qed.

(** C2: when processing a row fails at any point (dimension resolution,
    the fact delete, the fact insert, or the commit), the committed database
    after the row is the one from before the row; and when the run goes on,
    the working database is rolled back to it as well, so no dimension row
    or fact change of the failed row remains. *)
Theorem import_row_failure_restores fault idx total r c e cb :
  work c = committed c ->
  (process_row fault r;; commit fault)
    (snd (print (Progress idx total) c)) = (Raise e, cb) ->
  committed (snd (import_row fault idx total r c)) = committed c /\
  (fst (import_row fault idx total r c) = Ok tt ->
   work (snd (import_row fault idx total r c)) = work c).
Proof.
  intros Hw Hb. rewrite import_row_unfold. unfold try_db. rewrite Hb.
  apply body_fail_same_committed in Hb. cbn [print snd committed] in Hb.
  destruct e as [msg|msg].
  - unfold bind, rollback. destruct (fault (tick cb)); cbn.
    + split; [exact Hb | discriminate].
    + split; [exact Hb|]. intros _. congruence.
  - cbn. split; [exact Hb | discriminate].
Qed.

(** C3 (defect): a record whose date cell is empty or unparsable ([NaT]
    after [pd.read_csv(..., parse_dates=["FullDate"])]) aborts the run.
    [NaT.strftime] raises a [ValueError], which [except pyodbc.Error] does
    not catch: [main] stops with that exception right after the record's
    progress line, before any statement is sent, so no later record is
    processed and the completion line is never printed. *)
Theorem main_nat_date_aborts_run fault r rest c :
  FullDate r = NaT ->
  main fault (r :: rest) c =
    (Raise (ValueError "NaTType does not support strftime"%string),
     snd (print (Progress 1 (Z.of_nat (S (List.length rest))))
            (snd (print Start c)))).
Proof.
  intros Hd. unfold main, bind at 1. cbn [print fst snd].
  cbn [List.length]. unfold bind at 1.
  rewrite import_rows_cons, import_row_unfold. unfold try_db.
  unfold process_row, bind at 1 2 3, get_or_create_date. rewrite Hd.
  reflexivity.
Qed.


(** C6: for every date a [datetime] can hold, [get_or_create_date] returns
    [year*10000 + month*100 + day], whatever the database holds; it inserts
    a [dim_Date] row only when none has that key, so a later call leaves
    the table alone and the key never has more than one row. *)
Theorem get_or_create_date_key fault d c k c' :
  valid_date d ->
  get_or_create_date fault (TS d) c = (Ok k, c') ->
  k = year d * 10000 + month d * 100 + day d /\
  (date_present k (work c) = true -> dim_Date (work c') = dim_Date (work c)) /\
  (date_present k (work c) = false ->
   exists row, Dates.DateID row = k /\
               dim_Date (work c') = dim_Date (work c) ++ [row]) /\
  date_present k (work c') = true /\
  ((count_date k (work c) <= 1)%nat -> count_date k (work c') = 1%nat).
Proof.
  intros Hv H. unfold get_or_create_date in H.
  rewrite (py_int_strftime d Hv) in H.
  set (key := year d * 10000 + month d * 100 + day d) in *.
  split_binds. apply execute_ok in Hm. destruct Hm as (_ & db & i & Hs & ->).
  unfold select_date in Hs. injection Hs as Ha Hdb Hi. subst a db i.
  destruct (existsb (fun r => Dates.DateID r =? key) (dim_Date (work c)))
    eqn:Ex.
  - cbn [ret] in H. inversion H; subst k c'. cbn [work next_tick set_work].
    unfold date_present, count_date. rewrite Ex.
    repeat split; try reflexivity; try discriminate.
    intros Hle. apply Nat.le_antisymm; [exact Hle|].
    destruct (filter _ _) eqn:Ef; [|cbn; lia].
    assert (Hf : existsb (fun r => Dates.DateID r =? key)
                   (dim_Date (work c)) = false)
      by (apply existsb_filter_length; rewrite Ef; reflexivity).
    congruence.
  - split_binds. apply execute_ok in Hm. destruct Hm as (_ & db & i & Hs & ->).
    unfold insert_date in Hs. inversion Hs; subst db i; clear Hs.
    inversion H; subst k c'. cbn [work next_tick set_work upd_dates dim_Date].
    unfold date_present, count_date, upd_dates. cbn [dim_Date]. rewrite Ex.
    split; [reflexivity|]. split; [discriminate|]. split.
    + intros _. eexists. split; [|reflexivity]. reflexivity.
    + rewrite existsb_app, filter_app, length_app. cbn.
      rewrite Z.eqb_refl, orb_true_r. split; [reflexivity|].
      apply existsb_filter_length in Ex. rewrite Ex. reflexivity.
Qed.

(** C9: a [NULL] age bracket or gender (resp. platform, device or position)
    never satisfies the [col = ?] lookup, so [get_or_create_demographic]
    (resp. [get_or_create_placement]) inserts a new row and returns the next
    [IDENTITY] value, even when a row with the same values is present. *)
Theorem null_natural_key_always_inserts fault c :
  fault (tick c) = None -> fault (S (tick c)) = None ->
  (forall age_bracket gender,
     age_bracket = None \/ gender = None ->
     exists c',
       get_or_create_demographic fault age_bracket gender c =
         (Ok (next_demographic (idents c)), c') /\
       dim_Demographics (work c') =
         dim_Demographics (work c) ++
           [Demographics.mk (next_demographic (idents c)) age_bracket gender]) /\
  (forall platform device position,
     platform = None \/ device = None \/ position = None ->
     exists c',
       get_or_create_placement fault platform device position c =
         (Ok (next_placement (idents c)), c') /\
       dim_Placements (work c') =
         dim_Placements (work c) ++
           [Placements.mk (next_placement (idents c)) platform device
                          position]).
Proof.
  intros H0 H1. split.
  - intros a g Hnull. unfold get_or_create_demographic, bind, execute.
    rewrite H0. unfold select_demographic.
    rewrite find_none_all
      by (intros x; destruct Hnull as [-> | ->];
          rewrite sql_eq_null_r; [reflexivity | apply andb_false_r]).
    cbn [option_map next_tick set_work tick]. rewrite H1.
    eexists. split; reflexivity.
  - intros p d q Hnull. unfold get_or_create_placement, bind, execute.
    rewrite H0. unfold select_placement.
    rewrite find_none_all
      by (intros x; destruct Hnull as [-> | [-> | ->]];
          rewrite sql_eq_null_r;
          [reflexivity | rewrite andb_false_r; reflexivity
          | apply andb_false_r]).
    cbn [option_map next_tick set_work tick]. rewrite H1.
    eexists. split; reflexivity.
Qed.

(** C10: when a row with the given FBID is already in [dim_Campaigns]
    ([dim_AdSets], [dim_Ads]), the result and the whole state after
    [get_or_create_campaign] ([get_or_create_adset], [get_or_create_ad])
    do not depend on the parent key nor on the descriptive attributes. *)
Theorem existing_fbid_ignores_parent_and_attributes fault c :
  (forall campaign_fbid,
     (exists x, In x (dim_Campaigns (work c)) /\
                Campaigns.CampaignFBID x = campaign_fbid) ->
     forall client_id1 client_id2 name1 name2 objective1 objective2,
       get_or_create_campaign fault client_id1 campaign_fbid name1 objective1 c =
       get_or_create_campaign fault client_id2 campaign_fbid name2 objective2 c) /\
  (forall adset_fbid,
     (exists x, In x (dim_AdSets (work c)) /\ AdSets.AdSetFBID x = adset_fbid) ->
     forall campaign_id1 campaign_id2 name1 name2,
       get_or_create_adset fault campaign_id1 adset_fbid name1 c =
       get_or_create_adset fault campaign_id2 adset_fbid name2 c) /\
  (forall ad_fbid,
     (exists x, In x (dim_Ads (work c)) /\ Ads.AdFBID x = ad_fbid) ->
     forall adset_id1 adset_id2 n1 n2 b1 b2 t1 t2 l1 l2,
       get_or_create_ad fault adset_id1 ad_fbid n1 b1 t1 l1 c =
       get_or_create_ad fault adset_id2 ad_fbid n2 b2 t2 l2 c).
Proof.
  split; [|split].
  - intros f (x & Hin & Hx) k1 k2 n1 n2 o1 o2.
    destruct (find_some_in (fun r => Campaigns.CampaignFBID r =? f)
                (dim_Campaigns (work c)) x Hin) as [y Hy];
      [apply Z.eqb_eq; exact Hx|].
    unfold get_or_create_campaign, bind, execute, select_campaign.
    destruct (fault (tick c)); [reflexivity|]. rewrite Hy. reflexivity.
  - intros f (x & Hin & Hx) k1 k2 n1 n2.
    destruct (find_some_in (fun r => AdSets.AdSetFBID r =? f)
                (dim_AdSets (work c)) x Hin) as [y Hy];
      [apply Z.eqb_eq; exact Hx|].
    unfold get_or_create_adset, bind, execute, select_adset.
    destruct (fault (tick c)); [reflexivity|]. rewrite Hy. reflexivity.
  - intros f (x & Hin & Hx) k1 k2 n1 n2 b1 b2 t1 t2 l1 l2.
    destruct (find_some_in (fun r => Ads.AdFBID r =? f)
                (dim_Ads (work c)) x Hin) as [y Hy];
      [apply Z.eqb_eq; exact Hx|].
    unfold get_or_create_ad, bind, execute, select_ad.
    destruct (fault (tick c)); [reflexivity|]. rewrite Hy. reflexivity.
Qed.


(** C8 (amended): a run of [main] that ends normally handles the records
    in order, one outcome per record (see [rows_run]), and prints the start
    line, then for the record at each position [idx] (from 1 to the number
    [n] of records) its progress line "row idx of n", followed by one line
    with [idx] and the driver's error exactly when that record's processing
    or commit raised a [pyodbc.Error] (whose rollback then succeeded), and
    last the fixed completion line; nothing else: no count of succeeded or
    failed records and no final list of failures. *)
Theorem main_output fault rows c c' :
  main fault rows c = (Ok tt, c') ->
  exists os c2,
    rows_run fault 1 (Z.of_nat (List.length rows)) rows (snd (print Start c)) os c2 /\
    c' = snd (print Done c2) /\
    out c' = out c ++ Start :: report 1 (Z.of_nat (List.length rows)) os ++ [Done].
Proof.
  unfold main. intros H. split_binds.
  cbn [print] in Hm. inversion Hm; subst; clear Hm. destruct a0.
  apply import_rows_run in Hm0. destruct Hm0 as (os & Hr & Ho).
  exists os; eexists. split; [exact Hr|].
  cbn [print] in H. inversion H; subst; clear H.
  split; [reflexivity|].
  cbn [out] in Ho |- *. rewrite Ho, <- !app_assoc. reflexivity.
Qed.

(** C5 (amended): when the input follows one hierarchy (every row with a
    given campaign FBID has the same account FBID, every row with a given
    ad set FBID the same campaign FBID, every row with a given ad FBID the
    same ad set FBID) and the committed database already follows it, then
    after [main] (whether it ends normally or not), every committed fact
    row is hierarchy-consistent: its ad's row references the fact's ad set
    key, that ad set's row references the fact's campaign key, that
    campaign's row references the fact's client key, and that client's
    AccountFBID is the account of the campaign's FBID (so, the AccountFBID
    of the rows that carry that campaign). *)
Theorem main_hierarchy_consistent co so ao fault rows c res c' :
  Forall (consistent_row co so ao) rows ->
  loop_inv co so ao c ->
  main fault rows c = (res, c') ->
  forall f, In f (fact_Metrics (committed c')) -> fact_ok co (committed c') f.
Proof.
  intros Hf Hl H. unfold main, bind at 1 in H. cbn [print] in H.
  assert (Hl0 : loop_inv co so ao
                  (mkConn (committed c) (work c) (idents c) (tick c)
                          (out c ++ [Start]))) by exact Hl.
  unfold bind in H.
  destruct (import_rows fault 1 (Z.of_nat (List.length rows)) rows
              (mkConn (committed c) (work c) (idents c) (tick c)
                      (out c ++ [Start]))) as [[u|e] c1] eqn:E;
    apply (import_rows_inv co so ao) in E; auto; destruct E as [Hi _].
  - cbn [print] in H. inversion H; subst. apply Hi.
  - inversion H; subst. apply Hi.
Qed.

(** ** Witnesses and counterexamples *)

Lemma process_row_last_write_wins_witness :
  process_row nofault row1_again c1 =
    (Ok tt, snd (process_row nofault row1_again c1)) /\
  exists f, Facts.Measures f = row_measures row1_again /\
    forall g, facts_at g (work (snd (process_row nofault row1_again c1))) =
      if grain_eqb g (grain f) then [f] else facts_at g (work c1).
Proof.
  split; [vm_compute; reflexivity|].
  apply (process_row_last_write_wins nofault row1_again c1).
  vm_compute. reflexivity.
Defined.

(** The insert of the fact row (statement 25) fails after its delete
    (statement 24): the committed fact row of [row1] stays. *)
Lemma import_row_failure_restores_witness :
  work c1 = committed c1 /\
  (process_row (fault_at 25) row1_again;; commit (fault_at 25))
    (snd (print (Progress 1 1) c1)) =
    (Raise (DbError "HY000"%string),
     snd ((process_row (fault_at 25) row1_again;; commit (fault_at 25))
            (snd (print (Progress 1 1) c1)))) /\
  committed (snd (import_row (fault_at 25) 1 1 row1_again c1)) = committed c1 /\
  (fst (import_row (fault_at 25) 1 1 row1_again c1) = Ok tt ->
   work (snd (import_row (fault_at 25) 1 1 row1_again c1)) = work c1).
Proof.
  split; [vm_compute; reflexivity|]. split; [vm_compute; reflexivity|].
  apply (import_row_failure_restores (fault_at 25) 1 1 row1_again c1
           (DbError "HY000"%string)
           (snd ((process_row (fault_at 25) row1_again;; commit (fault_at 25))
                   (snd (print (Progress 1 1) c1)))));
    vm_compute; reflexivity.
Defined.


Lemma main_nat_date_aborts_run_witness :
  FullDate row_nat = NaT /\
  main nofault [row_nat; row1] c0 =
    (Raise (ValueError "NaTType does not support strftime"%string),
     snd (print (Progress 1 2) (snd (print Start c0)))).
Proof.
  split; [reflexivity|].
  exact (main_nat_date_aborts_run nofault row_nat [row1] c0 eq_refl).
Defined.

(** C4: with a [NULL] age bracket, two calls with the same natural key
    return two surrogate keys and leave two rows with that key. *)
Theorem get_or_create_demographic_null_not_idempotent :
  let (r1, c') := get_or_create_demographic nofault None (Some "male"%string) c0 in
  let (r2, c'') := get_or_create_demographic nofault None (Some "male"%string) c' in
  r1 = Ok 1 /\ r2 = Ok 2 /\
  dim_Demographics (work c'') =
    [Demographics.mk 1 None (Some "male"%string); Demographics.mk 2 None (Some "male"%string)].
Proof. vm_compute. repeat split. Qed.

Lemma main_hierarchy_consistent_witness :
  Forall (consistent_row sample_camp_owner sample_adset_owner sample_ad_owner)
    [row1; row1_again] /\
  loop_inv sample_camp_owner sample_adset_owner sample_ad_owner c0 /\
  main nofault [row1; row1_again] c0 =
    (Ok tt, snd (main nofault [row1; row1_again] c0)) /\
  forall f, In f (fact_Metrics (committed (snd (main nofault [row1; row1_again] c0)))) ->
    fact_ok sample_camp_owner
      (committed (snd (main nofault [row1; row1_again] c0))) f.
Proof.
  assert (Hf : Forall (consistent_row sample_camp_owner sample_adset_owner
                         sample_ad_owner) [row1; row1_again])
    by (repeat constructor).
  assert (Hl : loop_inv sample_camp_owner sample_adset_owner sample_ad_owner c0)
    by (split; [apply inv_empty | reflexivity]).
  assert (H : main nofault [row1; row1_again] c0 =
               (Ok tt, snd (main nofault [row1; row1_again] c0)))
    by (vm_compute; reflexivity).
  split; [exact Hf|]. split; [exact Hl|]. split; [exact H|].
  exact (main_hierarchy_consistent sample_camp_owner sample_adset_owner
           sample_ad_owner nofault [row1; row1_again] c0 (Ok tt)
           (snd (main nofault [row1; row1_again] c0)) Hf Hl H).
Defined.

(** Campaign 10 is first met under account 1; a later row reports it under
    account 2 for the same grain. The fact row left references client 2,
    while its campaign's row references client 1, of AccountFBID 1. *)
Lemma main_hierarchy_consistent_counterexample :
  fact_Metrics (committed (snd (main nofault [row1; row2_other_account] c0))) =
    [Facts.mk 20240307 2 1 1 1 1 1 m100] /\
  option_map Campaigns.ClientID
    (campaign_by_id (committed (snd (main nofault [row1; row2_other_account] c0))) 1)
    = Some 1 /\
  option_map Clients.AccountFBID
    (client_by_id (committed (snd (main nofault [row1; row2_other_account] c0))) 1)
    = Some 1 /\
  AccountFBID row2_other_account = 2.
Proof. vm_compute. repeat split. Qed.

Lemma get_or_create_date_key_witness :
  valid_date (mkdate 2024 3 7) /\
  get_or_create_date nofault (TS (mkdate 2024 3 7)) c0 =
    (Ok 20240307, snd (get_or_create_date nofault (TS (mkdate 2024 3 7)) c0)) /\
  20240307 = 2024 * 10000 + 3 * 100 + 7.
Proof.
  assert (Hv : valid_date (mkdate 2024 3 7)) by (vm_compute; repeat split; discriminate).
  assert (He : get_or_create_date nofault (TS (mkdate 2024 3 7)) c0 =
    (Ok 20240307, snd (get_or_create_date nofault (TS (mkdate 2024 3 7)) c0)))
    by (vm_compute; reflexivity).
  split; [exact Hv|]. split; [exact He|].
  exact (proj1 (get_or_create_date_key nofault (mkdate 2024 3 7) c0 20240307
                  (snd (get_or_create_date nofault (TS (mkdate 2024 3 7)) c0))
                  Hv He)).
Defined.



Lemma main_output_witness :
  main (fault_at 15) [row1; row1] c0 =
    (Ok tt, snd (main (fault_at 15) [row1; row1] c0)) /\
  exists os c2,
    rows_run (fault_at 15) 1 (Z.of_nat (List.length [row1; row1])) [row1; row1]
      (snd (print Start c0)) os c2 /\
    snd (main (fault_at 15) [row1; row1] c0) = snd (print Done c2) /\
    out (snd (main (fault_at 15) [row1; row1] c0)) =
      out c0 ++ Start :: report 1 (Z.of_nat (List.length [row1; row1])) os ++ [Done].
Proof.
  assert (H : main (fault_at 15) [row1; row1] c0 =
    (Ok tt, snd (main (fault_at 15) [row1; row1] c0)))
    by (vm_compute; reflexivity).
  split; [exact H|].
  exact (main_output (fault_at 15) [row1; row1] c0 _ H).
Defined.

(** One row committed and one row failed end with the same last line, and
    no line counts rows: the run prints no summary. *)
Lemma main_output_counterexample :
  out (snd (main nofault [row1] c0)) = [Start; Progress 1 1; Done] /\
  out (snd (main (fault_at 15) [row1] c0)) =
    [Start; Progress 1 1; RowError 1 "HY000"%string; Done] /\
  List.length (fact_Metrics (committed (snd (main nofault [row1] c0)))) = 1%nat /\
  List.length (fact_Metrics (committed (snd (main (fault_at 15) [row1] c0)))) = 0%nat.
Proof. vm_compute. repeat split. Qed.

Lemma null_natural_key_always_inserts_witness :
  nofault (tick c1) = None /\ nofault (S (tick c1)) = None /\
  exists c',
    get_or_create_demographic nofault None (Some "male"%string) c1 =
      (Ok (next_demographic (idents c1)), c') /\
    dim_Demographics (work c') =
      dim_Demographics (work c1) ++
        [Demographics.mk (next_demographic (idents c1)) None (Some "male"%string)].
Proof.
  split; [reflexivity|]. split; [reflexivity|].
  apply (proj1 (null_natural_key_always_inserts nofault c1 eq_refl eq_refl)).
  left. reflexivity.
Defined.

(** ** Further properties of the loader *)

(** [get_or_create_client] is idempotent: once a call returned key [k]
    for an AccountFBID, the next call with that AccountFBID (any name)
    returns [k] after its one [SELECT], and inserts nothing. *)
Theorem get_or_create_client_idempotent fault a n n' c k c' :
  get_or_create_client fault a n c = (Ok k, c') ->
  fault (tick c') = None ->
  get_or_create_client fault a n' c' = (Ok k, next_tick c').
Proof.
  intros H Hf. unfold get_or_create_client in *. split_binds.
  apply execute_ok in Hm. destruct Hm as (_ & db & i & Hs & ->).
  unfold select_client in Hs. injection Hs; clear Hs; intros; subst.
  destruct (find (fun r => Clients.AccountFBID r =? a) (dim_Clients (work c)))
    as [x|] eqn:Ef; cbn [option_map] in H |- *.
  - cbn [ret] in H. injection H; intros; subst.
    unfold bind, execute. rewrite Hf. unfold select_client. cbn [work next_tick set_work].
    rewrite Ef. reflexivity.
  - apply execute_ok in H. destruct H as (_ & db & i & Hs & ->).
    unfold insert_client in Hs. injection Hs; clear Hs; intros; subst.
    unfold bind, execute. rewrite Hf. unfold select_client.
    cbn [work next_tick set_work upd_clients dim_Clients].
    rewrite find_app_new; [reflexivity | exact Ef | apply Z.eqb_refl].
Qed.

(** [get_or_create_campaign] is idempotent on the CampaignFBID: the next
    call returns the same key after its [SELECT] and inserts nothing,
    whatever client key, name and objective it is given. *)
Theorem get_or_create_campaign_idempotent fault client_id client_id' fbid n n' o o' c k c' :
  get_or_create_campaign fault client_id fbid n o c = (Ok k, c') ->
  fault (tick c') = None ->
  get_or_create_campaign fault client_id' fbid n' o' c' = (Ok k, next_tick c').
Proof.
  intros H Hf. unfold get_or_create_campaign in *. split_binds.
  apply execute_ok in Hm. destruct Hm as (_ & db & i & Hs & ->).
  unfold select_campaign in Hs. injection Hs; clear Hs; intros; subst.
  destruct (find _ (dim_Campaigns (work c))) as [x|] eqn:Ef;
    cbn [option_map] in H |- *.
  - cbn [ret] in H. injection H; intros; subst.
    unfold bind, execute. rewrite Hf. unfold select_campaign.
    cbn [work next_tick set_work]. rewrite Ef. reflexivity.
  - apply execute_ok in H. destruct H as (_ & db & i & Hs & ->).
    unfold insert_campaign in Hs. injection Hs; clear Hs; intros; subst.
    unfold bind, execute. rewrite Hf. unfold select_campaign.
    cbn [work next_tick set_work upd_campaigns dim_Campaigns].
    rewrite find_app_new; [reflexivity | exact Ef | apply Z.eqb_refl].
Qed.

(** [get_or_create_adset] is idempotent on the AdSetFBID: the next call
    returns the same key after its [SELECT] and inserts nothing, whatever
    campaign key and name it is given. *)
Theorem get_or_create_adset_idempotent fault campaign_id campaign_id' fbid n n' c k c' :
  get_or_create_adset fault campaign_id fbid n c = (Ok k, c') ->
  fault (tick c') = None ->
  get_or_create_adset fault campaign_id' fbid n' c' = (Ok k, next_tick c').
Proof.
  intros H Hf. unfold get_or_create_adset in *. split_binds.
  apply execute_ok in Hm. destruct Hm as (_ & db & i & Hs & ->).
  unfold select_adset in Hs. injection Hs; clear Hs; intros; subst.
  destruct (find _ (dim_AdSets (work c))) as [x|] eqn:Ef;
    cbn [option_map] in H |- *.
  - cbn [ret] in H. injection H; intros; subst.
    unfold bind, execute. rewrite Hf. unfold select_adset.
    cbn [work next_tick set_work]. rewrite Ef. reflexivity.
  - apply execute_ok in H. destruct H as (_ & db & i & Hs & ->).
    unfold insert_adset in Hs. injection Hs; clear Hs; intros; subst.
    unfold bind, execute. rewrite Hf. unfold select_adset.
    cbn [work next_tick set_work upd_adsets dim_AdSets].
    rewrite find_app_new; [reflexivity | exact Ef | apply Z.eqb_refl].
Qed.

(** [get_or_create_ad] is idempotent on the AdFBID: the next call returns
    the same key after its [SELECT] and inserts nothing, whatever ad set key
    and descriptive attributes it is given. *)
Theorem get_or_create_ad_idempotent fault adset_id adset_id' fbid n n' b b' t t' l l' c k c' :
  get_or_create_ad fault adset_id fbid n b t l c = (Ok k, c') ->
  fault (tick c') = None ->
  get_or_create_ad fault adset_id' fbid n' b' t' l' c' = (Ok k, next_tick c').
Proof.
  intros H Hf. unfold get_or_create_ad in *. split_binds.
  apply execute_ok in Hm. destruct Hm as (_ & db & i & Hs & ->).
  unfold select_ad in Hs. injection Hs; clear Hs; intros; subst.
  destruct (find _ (dim_Ads (work c))) as [x|] eqn:Ef;
    cbn [option_map] in H |- *.
  - cbn [ret] in H. injection H; intros; subst.
    unfold bind, execute. rewrite Hf. unfold select_ad.
    cbn [work next_tick set_work]. rewrite Ef. reflexivity.
  - apply execute_ok in H. destruct H as (_ & db & i & Hs & ->).
    unfold insert_ad in Hs. injection Hs; clear Hs; intros; subst.
    unfold bind, execute. rewrite Hf. unfold select_ad.
    cbn [work next_tick set_work upd_ads dim_Ads].
    rewrite find_app_new; [reflexivity | exact Ef | apply Z.eqb_refl].
Qed.

(** [get_or_create_demographic] is idempotent when neither the age bracket
    nor the gender is [NULL]: the next call with the same values returns
    the same key after its [SELECT] and inserts nothing. *)
Theorem get_or_create_demographic_idempotent fault a g c k c' :
  a <> None -> g <> None ->
  get_or_create_demographic fault a g c = (Ok k, c') ->
  fault (tick c') = None ->
  get_or_create_demographic fault a g c' = (Ok k, next_tick c').
Proof.
  intros Ha Hg H Hf. unfold get_or_create_demographic in *. split_binds.
  apply execute_ok in Hm. destruct Hm as (_ & db & i & Hs & ->).
  unfold select_demographic in Hs. injection Hs; clear Hs; intros; subst.
  destruct (find _ (dim_Demographics (work c))) as [x|] eqn:Ef;
    cbn [option_map] in H |- *.
  - cbn [ret] in H. injection H; intros; subst.
    unfold bind, execute. rewrite Hf. unfold select_demographic.
    cbn [work next_tick set_work]. rewrite Ef. reflexivity.
  - apply execute_ok in H. destruct H as (_ & db & i & Hs & ->).
    unfold insert_demographic in Hs. injection Hs; clear Hs; intros; subst.
    unfold bind, execute. rewrite Hf. unfold select_demographic.
    cbn [work next_tick set_work upd_demographics dim_Demographics].
    rewrite find_app_new; [reflexivity | exact Ef |].
    cbn. rewrite !sql_eq_some_refl by assumption. reflexivity.
Qed.

(** [get_or_create_placement] is idempotent when none of platform, device
    and position is [NULL]: the next call with the same values returns the
    same key after its [SELECT] and inserts nothing. *)
Theorem get_or_create_placement_idempotent fault p d q c k c' :
  p <> None -> d <> None -> q <> None ->
  get_or_create_placement fault p d q c = (Ok k, c') ->
  fault (tick c') = None ->
  get_or_create_placement fault p d q c' = (Ok k, next_tick c').
Proof.
  intros Hp Hd Hq H Hf. unfold get_or_create_placement in *. split_binds.
  apply execute_ok in Hm. destruct Hm as (_ & db & i & Hs & ->).
  unfold select_placement in Hs. injection Hs; clear Hs; intros; subst.
  destruct (find _ (dim_Placements (work c))) as [x|] eqn:Ef;
    cbn [option_map] in H |- *.
  - cbn [ret] in H. injection H; intros; subst.
    unfold bind, execute. rewrite Hf. unfold select_placement.
    cbn [work next_tick set_work]. rewrite Ef. reflexivity.
  - apply execute_ok in H. destruct H as (_ & db & i & Hs & ->).
    unfold insert_placement in Hs. injection Hs; clear Hs; intros; subst.
    unfold bind, execute. rewrite Hf. unfold select_placement.
    cbn [work next_tick set_work upd_placements dim_Placements].
    rewrite find_app_new; [reflexivity | exact Ef |].
    cbn. rewrite !sql_eq_some_refl by assumption. reflexivity.
Qed.

(** When the ClientIDs of [dim_Clients] are distinct and below the next
    [IDENTITY] value, the key [get_or_create_client] returns identifies a
    [dim_Clients] row whose AccountFBID is the one asked for. *)
Theorem get_or_create_client_key fault a n c k c' :
  self_lookup Clients.ClientID (dim_Clients (work c)) ->
  below Clients.ClientID (dim_Clients (work c)) (next_client (idents c)) ->
  get_or_create_client fault a n c = (Ok k, c') ->
  exists row, client_by_id (work c') k = Some row /\ Clients.AccountFBID row = a.
Proof.
  intros Hs0 Hb H. unfold get_or_create_client in H. split_binds.
  apply execute_ok in Hm. destruct Hm as (_ & db & i & Hs & ->).
  unfold select_client in Hs. injection Hs; clear Hs; intros; subst.
  destruct (find _ (dim_Clients (work c))) as [x|] eqn:Ef; cbn [option_map] in H.
  - cbn [ret] in H. injection H; intros; subst. key_found Ef Hs0.
  - apply execute_ok in H. destruct H as (_ & db & i & Hs & ->).
    unfold insert_client in Hs. injection Hs; clear Hs; intros; subst.
    eexists. split;
      [apply find_app_new; [apply below_find_none, Hb | apply Z.eqb_refl]
      | reflexivity].
Qed.

(** When the CampaignIDs are distinct and below the next [IDENTITY] value,
    the key [get_or_create_campaign] returns identifies a [dim_Campaigns]
    row with the CampaignFBID asked for. *)
Theorem get_or_create_campaign_key fault client_id fbid n o c k c' :
  self_lookup Campaigns.CampaignID (dim_Campaigns (work c)) ->
  below Campaigns.CampaignID (dim_Campaigns (work c)) (next_campaign (idents c)) ->
  get_or_create_campaign fault client_id fbid n o c = (Ok k, c') ->
  exists row, campaign_by_id (work c') k = Some row /\
              Campaigns.CampaignFBID row = fbid.
Proof.
  intros Hs0 Hb H. unfold get_or_create_campaign in H. split_binds.
  apply execute_ok in Hm. destruct Hm as (_ & db & i & Hs & ->).
  unfold select_campaign in Hs. injection Hs; clear Hs; intros; subst.
  destruct (find _ (dim_Campaigns (work c))) as [x|] eqn:Ef; cbn [option_map] in H.
  - cbn [ret] in H. injection H; intros; subst. key_found Ef Hs0.
  - apply execute_ok in H. destruct H as (_ & db & i & Hs & ->).
    unfold insert_campaign in Hs. injection Hs; clear Hs; intros; subst.
    eexists. split;
      [apply find_app_new; [apply below_find_none, Hb | apply Z.eqb_refl]
      | reflexivity].
Qed.

(** When the AdSetIDs are distinct and below the next [IDENTITY] value,
    the key [get_or_create_adset] returns identifies a [dim_AdSets] row
    with the AdSetFBID asked for. *)
Theorem get_or_create_adset_key fault campaign_id fbid n c k c' :
  self_lookup AdSets.AdSetID (dim_AdSets (work c)) ->
  below AdSets.AdSetID (dim_AdSets (work c)) (next_adset (idents c)) ->
  get_or_create_adset fault campaign_id fbid n c = (Ok k, c') ->
  exists row, adset_by_id (work c') k = Some row /\ AdSets.AdSetFBID row = fbid.
Proof.
  intros Hs0 Hb H. unfold get_or_create_adset in H. split_binds.
  apply execute_ok in Hm. destruct Hm as (_ & db & i & Hs & ->).
  unfold select_adset in Hs. injection Hs; clear Hs; intros; subst.
  destruct (find _ (dim_AdSets (work c))) as [x|] eqn:Ef; cbn [option_map] in H.
  - cbn [ret] in H. injection H; intros; subst. key_found Ef Hs0.
  - apply execute_ok in H. destruct H as (_ & db & i & Hs & ->).
    unfold insert_adset in Hs. injection Hs; clear Hs; intros; subst.
    eexists. split;
      [apply find_app_new; [apply below_find_none, Hb | apply Z.eqb_refl]
      | reflexivity].
Qed.

(** When the AdIDs are distinct and below the next [IDENTITY] value, the
    key [get_or_create_ad] returns identifies a [dim_Ads] row with the
    AdFBID asked for. *)
Theorem get_or_create_ad_key fault adset_id fbid n b t l c k c' :
  self_lookup Ads.AdID (dim_Ads (work c)) ->
  below Ads.AdID (dim_Ads (work c)) (next_ad (idents c)) ->
  get_or_create_ad fault adset_id fbid n b t l c = (Ok k, c') ->
  exists row, ad_by_id (work c') k = Some row /\ Ads.AdFBID row = fbid.
Proof.
  intros Hs0 Hb H. unfold get_or_create_ad in H. split_binds.
  apply execute_ok in Hm. destruct Hm as (_ & db & i & Hs & ->).
  unfold select_ad in Hs. injection Hs; clear Hs; intros; subst.
  destruct (find _ (dim_Ads (work c))) as [x|] eqn:Ef; cbn [option_map] in H.
  - cbn [ret] in H. injection H; intros; subst. key_found Ef Hs0.
  - apply execute_ok in H. destruct H as (_ & db & i & Hs & ->).
    unfold insert_ad in Hs. injection Hs; clear Hs; intros; subst.
    eexists. split;
      [apply find_app_new; [apply below_find_none, Hb | apply Z.eqb_refl]
      | reflexivity].
Qed.

(** Two dates [get_or_create_date] gives the same key are the same date:
    distinct calendar dates never share a [dim_Date] key. *)
Theorem get_or_create_date_injective fault d1 d2 c1 c2 k c1' c2' :
  valid_date d1 -> valid_date d2 ->
  get_or_create_date fault (TS d1) c1 = (Ok k, c1') ->
  get_or_create_date fault (TS d2) c2 = (Ok k, c2') ->
  d1 = d2.
Proof.
  intros Hv1 Hv2 H1 H2.
  apply get_or_create_date_returns_key in H1; [|exact Hv1].
  apply get_or_create_date_returns_key in H2; [|exact Hv2].
  pose proof (days_in_month_le (year d1) (month d1)).
  pose proof (days_in_month_le (year d2) (month d2)).
  destruct d1 as [y1 m1 e1], d2 as [y2 m2 e2]; unfold valid_date in *; cbn in *.
  assert (y1 = y2) by lia. assert (m1 = m2) by lia. assert (e1 = e2) by lia.
  subst. reflexivity.
Qed.

(** With a driver that never fails, [process_row] never raises on a row
    whose date cell holds a date: only a [NaT] date makes it fail. *)
Theorem process_row_healthy_driver fault r c :
  (forall t, fault t = None) -> dated_row r ->
  exists c', process_row fault r c = (Ok tt, c').
Proof.
  intros Hf Hr. destruct (process_row_never_fails fault r Hf Hr c)
    as ([] & c' & E). eauto.
Qed.

(** With a driver that never fails and rows whose date cells hold dates,
    [main] ends normally, prints the start line, one progress line per row
    and the completion line, and no error line; and everything it did is
    committed. *)
Theorem main_healthy_driver fault rows c :
  (forall t, fault t = None) -> Forall dated_row rows ->
  work c = committed c ->
  exists c', main fault rows c = (Ok tt, c') /\
    out c' = out c ++ Start ::
      progress_lines 1 (Z.of_nat (List.length rows)) (List.length rows) ++
      [Done] /\
    work c' = committed c'.
Proof.
  intros Hf Hr Hw. unfold main.
  destruct (import_rows_healthy fault rows Hf Hr 1 (Z.of_nat (List.length rows))
              (snd (print Start c)) Hw) as (c' & E & Ho & Hw').
  exists (snd (print Done c')). unfold bind at 1. cbn [print fst snd].
  unfold bind. cbn [print snd] in E. rewrite E. cbn.
  split; [reflexivity|]. split; [|exact Hw'].
  rewrite Ho. cbn. rewrite <- !app_assoc. reflexivity.
Qed.

(** When a row fails with a [pyodbc.Error] and the [conn.rollback()] in
    the handler fails as well, that error leaves the loop: the run ends
    with it, the rows after are not processed, and the committed database
    is the one from before the row. *)
Theorem import_rows_rollback_failure fault idx total r rest c msg cb e :
  (process_row fault r;; commit fault) (snd (print (Progress idx total) c)) =
    (Raise (DbError msg), cb) ->
  fault (tick cb) = Some e ->
  import_rows fault idx total (r :: rest) c = (Raise (DbError e), next_tick cb) /\
  committed (next_tick cb) = committed c.
Proof.
  intros Hb Hf. split.
  - rewrite import_rows_cons, import_row_unfold. unfold try_db. rewrite Hb.
    unfold bind, rollback. rewrite Hf. reflexivity.
  - apply body_fail_same_committed in Hb. exact Hb.
Qed.

(** When the committed fact table holds at most one row per grain
    (DateID, AdID, DemographicID, PlacementID) at the start, it still does
    after [main], however the run ends. *)
Theorem main_grain_unique fault rows c res c' :
  grain_unique (fact_Metrics (committed c)) -> work c = committed c ->
  main fault rows c = (res, c') ->
  grain_unique (fact_Metrics (committed c')).
Proof.
  apply (main_committed (fun db => grain_unique (fact_Metrics db))).
  exact process_row_grain_unique.
Qed.

(** [main] never deletes or changes a committed dimension row: after the
    run, whatever its outcome, each committed dimension table is the one
    from before with rows appended. *)
Theorem main_dimensions_only_grow fault rows c res c' :
  work c = committed c ->
  main fault rows c = (res, c') ->
  dims_prefix (committed c) (committed c').
Proof.
  intros Hw H. revert H.
  apply (main_committed (dims_prefix (committed c)));
    [| apply dims_prefix_refl | exact Hw].
  intros fault' r c1 c2 H1 H2.
  exact (dims_prefix_trans _ _ _ H1 (process_row_dims_grow fault' r c1 _ c2 H2)).
Qed.

(** When the processing or commit of a record raises an exception, the
    committed database is the one from before the record. A
    [pyodbc.Error] whose rollback succeeds (the next statement number does
    not fail) makes the loop print the record's position and the error and
    go on with the next record, from a working database reset to the
    committed one; any other exception (a [ValueError], e.g. from a [NaT]
    date) ends the loop at that record with that exception. *)
Theorem import_rows_failure_policy fault idx total r rest c e cb :
  (process_row fault r;; commit fault)
    (snd (print (Progress idx total) c)) = (Raise e, cb) ->
  committed cb = committed c /\
  match e with
  | DbError msg =>
      fault (tick cb) = None ->
      import_rows fault idx total (r :: rest) c =
      import_rows fault (idx + 1) total rest
        (mkConn (committed c) (committed c) (idents cb) (S (tick cb))
                (out cb ++ [RowError idx msg]))
  | ValueError _ => import_rows fault idx total (r :: rest) c = (Raise e, cb)
  end.
Proof.
  intros Hb. pose proof (body_fail_same_committed _ _ _ _ _ Hb) as Hc.
  cbn [print snd committed] in Hc. split; [exact Hc|].
  rewrite import_rows_cons, import_row_unfold.
  unfold try_db. rewrite Hb. destruct e as [msg|msg].
  - intros Hf. unfold bind, rollback. rewrite Hf. cbn. rewrite Hc.
    reflexivity.
  - reflexivity.
Qed.

(** *** Witnesses of the further properties *)

Lemma get_or_create_client_idempotent_witness :
  let c' := snd (get_or_create_client nofault 1 None c0) in
  get_or_create_client nofault 1 None c0 = (Ok 1, c') /\
  nofault (tick c') = None /\
  get_or_create_client nofault 1 (Some "other"%string) c' = (Ok 1, next_tick c').
Proof.
  intros c'. assert (H : get_or_create_client nofault 1 None c0 = (Ok 1, c'))
    by (vm_compute; reflexivity).
  split; [exact H|]. split; [reflexivity|].
  exact (get_or_create_client_idempotent nofault 1 None (Some "other"%string)
           c0 1 c' H eq_refl).
Defined.

Lemma get_or_create_campaign_idempotent_witness :
  let c' := snd (get_or_create_campaign nofault 1 10 None None c0) in
  get_or_create_campaign nofault 1 10 None None c0 = (Ok 1, c') /\
  nofault (tick c') = None /\
  get_or_create_campaign nofault 7 10 (Some "other"%string) None c' =
    (Ok 1, next_tick c').
Proof.
  intros c'. assert (H : get_or_create_campaign nofault 1 10 None None c0 =
                         (Ok 1, c')) by (vm_compute; reflexivity).
  split; [exact H|]. split; [reflexivity|].
  exact (get_or_create_campaign_idempotent nofault 1 7 10 None
           (Some "other"%string) None None c0 1 c' H eq_refl).
Defined.

Lemma get_or_create_adset_idempotent_witness :
  let c' := snd (get_or_create_adset nofault 1 100 None c0) in
  get_or_create_adset nofault 1 100 None c0 = (Ok 1, c') /\
  nofault (tick c') = None /\
  get_or_create_adset nofault 7 100 (Some "other"%string) c' =
    (Ok 1, next_tick c').
Proof.
  intros c'. assert (H : get_or_create_adset nofault 1 100 None c0 = (Ok 1, c'))
    by (vm_compute; reflexivity).
  split; [exact H|]. split; [reflexivity|].
  exact (get_or_create_adset_idempotent nofault 1 7 100 None
           (Some "other"%string) c0 1 c' H eq_refl).
Defined.

Lemma get_or_create_ad_idempotent_witness :
  let c' := snd (get_or_create_ad nofault 1 1000 None None None None c0) in
  get_or_create_ad nofault 1 1000 None None None None c0 = (Ok 1, c') /\
  nofault (tick c') = None /\
  get_or_create_ad nofault 7 1000 (Some "other"%string) None None None c' =
    (Ok 1, next_tick c').
Proof.
  intros c'.
  assert (H : get_or_create_ad nofault 1 1000 None None None None c0 =
              (Ok 1, c')) by (vm_compute; reflexivity).
  split; [exact H|]. split; [reflexivity|].
  exact (get_or_create_ad_idempotent nofault 1 7 1000 None
           (Some "other"%string) None None None None None None c0 1 c' H
           eq_refl).
Defined.

Lemma get_or_create_demographic_idempotent_witness :
  let c' := snd (get_or_create_demographic nofault (Some "18-24"%string)
                   (Some "male"%string) c0) in
  get_or_create_demographic nofault (Some "18-24"%string) (Some "male"%string)
    c0 = (Ok 1, c') /\
  nofault (tick c') = None /\
  get_or_create_demographic nofault (Some "18-24"%string) (Some "male"%string)
    c' = (Ok 1, next_tick c').
Proof.
  intros c'.
  assert (H : get_or_create_demographic nofault (Some "18-24"%string)
                (Some "male"%string) c0 = (Ok 1, c'))
    by (vm_compute; reflexivity).
  split; [exact H|]. split; [reflexivity|].
  exact (get_or_create_demographic_idempotent nofault (Some "18-24"%string)
           (Some "male"%string) c0 1 c' ltac:(discriminate)
           ltac:(discriminate) H eq_refl).
Defined.

Lemma get_or_create_placement_idempotent_witness :
  let c' := snd (get_or_create_placement nofault (Some "fb"%string)
                   (Some "mobile"%string) (Some "feed"%string) c0) in
  get_or_create_placement nofault (Some "fb"%string) (Some "mobile"%string)
    (Some "feed"%string) c0 = (Ok 1, c') /\
  nofault (tick c') = None /\
  get_or_create_placement nofault (Some "fb"%string) (Some "mobile"%string)
    (Some "feed"%string) c' = (Ok 1, next_tick c').
Proof.
  intros c'.
  assert (H : get_or_create_placement nofault (Some "fb"%string)
                (Some "mobile"%string) (Some "feed"%string) c0 = (Ok 1, c'))
    by (vm_compute; reflexivity).
  split; [exact H|]. split; [reflexivity|].
  exact (get_or_create_placement_idempotent nofault (Some "fb"%string)
           (Some "mobile"%string) (Some "feed"%string) c0 1 c'
           ltac:(discriminate) ltac:(discriminate) ltac:(discriminate)
           H eq_refl).
Defined.

Lemma get_or_create_client_key_witness :
  let c' := snd (get_or_create_client nofault 1 None c1) in
  self_lookup Clients.ClientID (dim_Clients (work c1)) /\
  below Clients.ClientID (dim_Clients (work c1)) (next_client (idents c1)) /\
  get_or_create_client nofault 1 None c1 = (Ok 1, c') /\
  exists row, client_by_id (work c') 1 = Some row /\ Clients.AccountFBID row = 1.
Proof.
  intros c'.
  assert (H1 : self_lookup Clients.ClientID (dim_Clients (work c1)))
    by (vm_compute; intros x [<- | []]; reflexivity).
  assert (H2 : below Clients.ClientID (dim_Clients (work c1))
                 (next_client (idents c1)))
    by (vm_compute; intros x [<- | []]; reflexivity).
  assert (H : get_or_create_client nofault 1 None c1 = (Ok 1, c'))
    by (vm_compute; reflexivity).
  split; [exact H1|]. split; [exact H2|]. split; [exact H|].
  exact (get_or_create_client_key nofault 1 None c1 1 c' H1 H2 H).
Defined.

Lemma get_or_create_campaign_key_witness :
  let c' := snd (get_or_create_campaign nofault 1 10 None None c0) in
  self_lookup Campaigns.CampaignID (dim_Campaigns (work c0)) /\
  below Campaigns.CampaignID (dim_Campaigns (work c0))
    (next_campaign (idents c0)) /\
  get_or_create_campaign nofault 1 10 None None c0 = (Ok 1, c') /\
  exists row, campaign_by_id (work c') 1 = Some row /\
              Campaigns.CampaignFBID row = 10.
Proof.
  intros c'.
  assert (H1 : self_lookup Campaigns.CampaignID (dim_Campaigns (work c0)))
    by (intros x []).
  assert (H2 : below Campaigns.CampaignID (dim_Campaigns (work c0))
                 (next_campaign (idents c0))) by (intros x []).
  assert (H : get_or_create_campaign nofault 1 10 None None c0 = (Ok 1, c'))
    by (vm_compute; reflexivity).
  split; [exact H1|]. split; [exact H2|]. split; [exact H|].
  exact (get_or_create_campaign_key nofault 1 10 None None c0 1 c' H1 H2 H).
Defined.

Lemma get_or_create_adset_key_witness :
  let c' := snd (get_or_create_adset nofault 1 100 None c0) in
  self_lookup AdSets.AdSetID (dim_AdSets (work c0)) /\
  below AdSets.AdSetID (dim_AdSets (work c0)) (next_adset (idents c0)) /\
  get_or_create_adset nofault 1 100 None c0 = (Ok 1, c') /\
  exists row, adset_by_id (work c') 1 = Some row /\ AdSets.AdSetFBID row = 100.
Proof.
  intros c'.
  assert (H1 : self_lookup AdSets.AdSetID (dim_AdSets (work c0)))
    by (intros x []).
  assert (H2 : below AdSets.AdSetID (dim_AdSets (work c0))
                 (next_adset (idents c0))) by (intros x []).
  assert (H : get_or_create_adset nofault 1 100 None c0 = (Ok 1, c'))
    by (vm_compute; reflexivity).
  split; [exact H1|]. split; [exact H2|]. split; [exact H|].
  exact (get_or_create_adset_key nofault 1 100 None c0 1 c' H1 H2 H).
Defined.

Lemma get_or_create_ad_key_witness :
  let c' := snd (get_or_create_ad nofault 1 1000 None None None None c0) in
  self_lookup Ads.AdID (dim_Ads (work c0)) /\
  below Ads.AdID (dim_Ads (work c0)) (next_ad (idents c0)) /\
  get_or_create_ad nofault 1 1000 None None None None c0 = (Ok 1, c') /\
  exists row, ad_by_id (work c') 1 = Some row /\ Ads.AdFBID row = 1000.
Proof.
  intros c'.
  assert (H1 : self_lookup Ads.AdID (dim_Ads (work c0))) by (intros x []).
  assert (H2 : below Ads.AdID (dim_Ads (work c0)) (next_ad (idents c0)))
    by (intros x []).
  assert (H : get_or_create_ad nofault 1 1000 None None None None c0 =
              (Ok 1, c')) by (vm_compute; reflexivity).
  split; [exact H1|]. split; [exact H2|]. split; [exact H|].
  exact (get_or_create_ad_key nofault 1 1000 None None None None c0 1 c'
           H1 H2 H).
Defined.

Lemma get_or_create_date_injective_witness :
  valid_date (mkdate 2024 3 7) /\
  get_or_create_date nofault (TS (mkdate 2024 3 7)) c0 =
    (Ok 20240307, snd (get_or_create_date nofault (TS (mkdate 2024 3 7)) c0)) /\
  get_or_create_date nofault (TS (mkdate 2024 3 7)) c1 =
    (Ok 20240307, snd (get_or_create_date nofault (TS (mkdate 2024 3 7)) c1)) /\
  mkdate 2024 3 7 = mkdate 2024 3 7.
Proof.
  assert (Hv : valid_date (mkdate 2024 3 7))
    by (vm_compute; repeat split; discriminate).
  assert (H1 : get_or_create_date nofault (TS (mkdate 2024 3 7)) c0 =
    (Ok 20240307, snd (get_or_create_date nofault (TS (mkdate 2024 3 7)) c0)))
    by (vm_compute; reflexivity).
  assert (H2 : get_or_create_date nofault (TS (mkdate 2024 3 7)) c1 =
    (Ok 20240307, snd (get_or_create_date nofault (TS (mkdate 2024 3 7)) c1)))
    by (vm_compute; reflexivity).
  split; [exact Hv|]. split; [exact H1|]. split; [exact H2|].
  exact (get_or_create_date_injective nofault _ _ c0 c1 20240307 _ _
           Hv Hv H1 H2).
Defined.

Lemma process_row_healthy_driver_witness :
  (forall t, nofault t = None) /\ dated_row row1 /\
  exists c', process_row nofault row1 c0 = (Ok tt, c').
Proof.
  assert (Hf : forall t, nofault t = None) by (intros t; reflexivity).
  assert (Hr : dated_row row1)
    by (exists (mkdate 2024 3 7); split;
        [reflexivity | vm_compute; repeat split; discriminate]).
  split; [exact Hf|]. split; [exact Hr|].
  exact (process_row_healthy_driver nofault row1 c0 Hf Hr).
Defined.

Lemma main_healthy_driver_witness :
  (forall t, nofault t = None) /\ Forall dated_row [row1; row1_again] /\
  work c0 = committed c0 /\
  exists c', main nofault [row1; row1_again] c0 = (Ok tt, c') /\
    out c' = out c0 ++ Start :: progress_lines 1 2 2 ++ [Done] /\
    work c' = committed c'.
Proof.
  assert (Hf : forall t, nofault t = None) by (intros t; reflexivity).
  assert (Hd1 : dated_row row1)
    by (exists (mkdate 2024 3 7); split;
        [reflexivity | vm_compute; repeat split; discriminate]).
  assert (Hd2 : dated_row row1_again)
    by (exists (mkdate 2024 3 7); split;
        [reflexivity | vm_compute; repeat split; discriminate]).
  assert (Hr : Forall dated_row [row1; row1_again])
    by (exact (Forall_cons _ Hd1 (Forall_cons _ Hd2 (Forall_nil _)))).
  split; [exact Hf|]. split; [exact Hr|]. split; [reflexivity|].
  exact (main_healthy_driver nofault [row1; row1_again] c0 Hf Hr eq_refl).
Defined.

(** The fact insert of [row1] (statement 15) fails, and so does the
    rollback (statement 16). *)
Lemma import_rows_rollback_failure_witness :
  let cb := snd ((process_row (faults_at [15; 16]%nat) row1;;
                  commit (faults_at [15; 16]%nat))
                   (snd (print (Progress 1 2) c0))) in
  (process_row (faults_at [15; 16]%nat) row1;; commit (faults_at [15; 16]%nat))
    (snd (print (Progress 1 2) c0)) = (Raise (DbError "HY000"%string), cb) /\
  faults_at [15; 16]%nat (tick cb) = Some "HY000"%string /\
  import_rows (faults_at [15; 16]%nat) 1 2 [row1; row1] c0 =
    (Raise (DbError "HY000"%string), next_tick cb) /\
  committed (next_tick cb) = committed c0.
Proof.
  intros cb.
  assert (H : (process_row (faults_at [15; 16]%nat) row1;;
               commit (faults_at [15; 16]%nat))
                (snd (print (Progress 1 2) c0)) =
              (Raise (DbError "HY000"%string), cb))
    by (vm_compute; reflexivity).
  assert (Hf : faults_at [15; 16]%nat (tick cb) = Some "HY000"%string)
    by (vm_compute; reflexivity).
  split; [exact H|]. split; [exact Hf|].
  exact (import_rows_rollback_failure (faults_at [15; 16]%nat) 1 2 row1 [row1]
           c0 "HY000"%string cb "HY000"%string H Hf).
Defined.

Lemma main_grain_unique_witness :
  grain_unique (fact_Metrics (committed c0)) /\ work c0 = committed c0 /\
  main nofault [row1; row1_again] c0 =
    (Ok tt, snd (main nofault [row1; row1_again] c0)) /\
  grain_unique
    (fact_Metrics (committed (snd (main nofault [row1; row1_again] c0)))).
Proof.
  assert (Hu : grain_unique (fact_Metrics (committed c0)))
    by (intros g; cbn; lia).
  assert (H : main nofault [row1; row1_again] c0 =
              (Ok tt, snd (main nofault [row1; row1_again] c0)))
    by (vm_compute; reflexivity).
  split; [exact Hu|]. split; [reflexivity|]. split; [exact H|].
  exact (main_grain_unique nofault [row1; row1_again] c0 (Ok tt) _ Hu eq_refl H).
Defined.

Lemma main_dimensions_only_grow_witness :
  work c1 = committed c1 /\
  main nofault [row2_other_account] c1 =
    (Ok tt, snd (main nofault [row2_other_account] c1)) /\
  dims_prefix (committed c1)
    (committed (snd (main nofault [row2_other_account] c1))).
Proof.
  assert (Hw : work c1 = committed c1) by (vm_compute; reflexivity).
  assert (H : main nofault [row2_other_account] c1 =
              (Ok tt, snd (main nofault [row2_other_account] c1)))
    by (vm_compute; reflexivity).
  split; [exact Hw|]. split; [exact H|].
  exact (main_dimensions_only_grow nofault [row2_other_account] c1 (Ok tt) _
           Hw H).
Defined.

Lemma import_rows_failure_policy_witness :
  (process_row (fault_at 15) row1;; commit (fault_at 15))
    (snd (print (Progress 1 2) c0)) =
    (Raise (DbError "HY000"%string),
     snd ((process_row (fault_at 15) row1;; commit (fault_at 15))
            (snd (print (Progress 1 2) c0)))) /\
  committed (snd ((process_row (fault_at 15) row1;; commit (fault_at 15))
                    (snd (print (Progress 1 2) c0)))) = committed c0.
Proof.
  split; [vm_compute; reflexivity|].
  apply (import_rows_failure_policy (fault_at 15) 1 2 row1 [row1] c0
           (DbError "HY000"%string)
           (snd ((process_row (fault_at 15) row1;; commit (fault_at 15))
                   (snd (print (Progress 1 2) c0))))).
  vm_compute. reflexivity.
Defined.
